(** * Task API server ([backend/src/app.js]): model and properties

    The server is an Express application with six routes over one table,
    [tasks], reached through a [mysql2] connection pool, plus a start-up
    routine ([initDb]) that creates the schema and the table and re-arms
    itself with [setTimeout] when that fails.

    The handlers are embedded as computations in a state-and-exception monad
    over the process state ([world]); [await pool.query(..)] is the only
    operation that can throw, and [try { .. } catch (error) { .. }] is the
    combinator [try_catch].  The relational store is not part of the
    repository: it is modelled from the schema text that [initDb] sends
    (columns, [NOT NULL], [AUTO_INCREMENT], [DEFAULT CURRENT_TIMESTAMP]),
    with what the driver and the server decide on their own collected in the
    class [Dialect]. *)

From stdpp Require Import gmap strings list pretty sorting.
From Stdlib Require Import ZArith.

#[local] Set Warnings "-register-all".
#[local] Open Scope Z_scope.

(** ** JavaScript values

    Request bodies are what [express.json()] hands to the handlers: parsed
    JSON objects.  Numbers are restricted to integers; [JDate] is the [Date]
    object the driver builds for a [TIMESTAMP] column. *)

Inductive jsval : Type :=
| JUndefined
| JNull
| JBool (b : bool)
| JNum (n : Z)
| JStr (s : string)
| JDate (t : Z)
| JArr (l : list jsval)
| JObj (o : gmap string jsval).

(** [!v] is [negb (truthy v)]. *)
Definition truthy (v : jsval) : bool :=
  match v with
  | JUndefined | JNull => false
  | JBool b => b
  | JNum n => negb (n =? 0)
  | JStr s => negb (String.eqb s "")
  | JDate _ | JArr _ | JObj _ => true
  end.

(** [a || b] *)
Definition js_or (a b : jsval) : jsval := if truthy a then a else b.

(** Property read, as in [const { title, description } = req.body]. *)
Definition prop (o : gmap string jsval) (k : string) : jsval :=
  default JUndefined (o !! k).

Definition is_undefined (v : jsval) : bool :=
  match v with JUndefined => true | _ => false end.

(** [JSON.stringify] as far as it changes the shape of a value: a property
    whose value is [undefined] is left out, an [undefined] array element
    becomes [null]. *)
Fixpoint to_json (v : jsval) : jsval :=
  match v with
  | JArr l => JArr (map (λ x, if is_undefined x then JNull else to_json x) l)
  | JObj o => JObj (omap (λ x, if is_undefined x then None else Some (to_json x)) o)
  | _ => v
  end.

(** ** HTTP requests and responses *)

Inductive request : Type :=
| GetHealth
| GetTasks
| GetTask (id : string)
| PostTask (body : gmap string jsval)
| PutTask (id : string) (body : gmap string jsval)
| DeleteTask (id : string).

Record response : Type := Response { status : Z; body : option jsval }.

(** [res.status(code).json(v)] and [res.status(code).end()] *)
Definition res_json (code : Z) (v : jsval) : response :=
  {| status := code; body := Some (to_json v) |}.

Definition res_end (code : Z) : response :=
  {| status := code; body := None |}.

Definition error_body (msg : string) : jsval := JObj {[ "error" := JStr msg ]}.

(** Field of a response body, when the body is an object. *)
Definition field (r : response) (k : string) : option jsval :=
  match body r with
  | Some (JObj o) => o !! k
  | _ => None
  end.

(** ** The store

    One table, with the shape [initDb] declares:
<<
      id INT AUTO_INCREMENT PRIMARY KEY,
      title VARCHAR(255) NOT NULL,
      description TEXT,
      created_at TIMESTAMP DEFAULT CURRENT_TIMESTAMP
>>
    A row keeps [description] as an [option]: the column is nullable. *)

Record task_row : Type := TaskRow {
  id : Z;
  title : string;
  description : option string;
  created_at : Z
}.

(** The table and its auto-increment counter (the next key to hand out). *)
Record table : Type := Table {
  rows : list task_row;
  auto_increment : Z
}.

(** A server: whether it accepts connections, its schemas (each with its
    [tasks] table once created) and its clock. *)
Record store : Type := Store {
  online : bool;
  schemas : gmap string (option table);
  now : Z
}.

Inductive sqlval : Type :=
| SqlNull
| SqlText (s : string).

Inductive sql_error : Type :=
| ECONNREFUSED
| ER_BAD_DB_ERROR
| ER_NO_SUCH_TABLE
| ER_PARSE_ERROR
| ER_BAD_NULL_ERROR
| ER_DATA_TOO_LONG
| ER_AUTOINC_READ_FAILED.

(** What the driver sends and what the server answers (the
    [ResultSetHeader] of a statement that returns no rows). *)
Inductive statement : Type :=
| SelectAll
| SelectById (key : string)
| InsertTask (title description : jsval)
| UpdateTask (title description : jsval) (key : string)
| DeleteById (key : string)
| CreateDatabase (sql : string)
| CreateTable.

Record header : Type := Header { insertId : Z; affectedRows : Z }.

Definition result_of (s : statement) : Type :=
  match s with
  | SelectAll | SelectById _ => list task_row
  | _ => header
  end.

(** The SQL text of each statement, as written in the handlers (the
    [CREATE TABLE] text on one line). *)
Definition sql_text (s : statement) : string :=
  match s with
  | SelectAll => "SELECT * FROM tasks"
  | SelectById _ => "SELECT * FROM tasks WHERE id = ?"
  | InsertTask _ _ => "INSERT INTO tasks (title, description) VALUES (?, ?)"
  | UpdateTask _ _ _ => "UPDATE tasks SET title = ?, description = ? WHERE id = ?"
  | DeleteById _ => "DELETE FROM tasks WHERE id = ?"
  | CreateDatabase sql => sql
  | CreateTable =>
      "CREATE TABLE IF NOT EXISTS tasks (id INT AUTO_INCREMENT PRIMARY KEY, title VARCHAR(255) NOT NULL, description TEXT, created_at TIMESTAMP DEFAULT CURRENT_TIMESTAMP)"
  end.

(** What the repository does not decide: how the server compares the [INT]
    key with the text of a path parameter, how the driver binds a value that
    is neither text nor null, and which schema a [CREATE DATABASE] text
    creates ([None]: the text is rejected). *)
Class Dialect : Type := {
  key_of : string → option Z;
  bind_other : jsval → option sqlval;
  ddl_schema : string → option string
}.

Definition INT_MAX : Z := 2147483647.
Definition VARCHAR_MAX : Z := 255.
Definition TEXT_MAX : Z := 65535.

(** A text fits a column when it has at most [limit] characters (a
    character of the model's strings standing for one unit of the column). *)
Definition fits (limit : Z) (s : string) : bool :=
  Z.of_nat (String.length s) <=? limit.

(** The first [n] characters of a text, what follows them, and whether a
    text is made of spaces only. *)
Fixpoint keep (n : Z) (s : string) : string :=
  match s with
  | EmptyString => EmptyString
  | String c s' => if n <=? 0 then EmptyString else String c (keep (n - 1) s')
  end.

Fixpoint skip (n : Z) (s : string) : string :=
  match s with
  | EmptyString => EmptyString
  | String c s' => if n <=? 0 then s else skip (n - 1) s'
  end.

Fixpoint spaces_only (s : string) : bool :=
  match s with
  | EmptyString => true
  | String c s' => (Z.of_N (Ascii.N_of_ascii c) =? 32) && spaces_only s'
  end.

(** A rejected query carries its error; [x ← q; k] stops at the first one. *)
#[global] Instance sum_bind {E : Type} : MBind (sum E) :=
  λ A B f m, match m with inl e => inl e | inr a => f a end.

Section Store.
Context `{D : Dialect}.

(** Placeholder binding: [undefined] and [null] are sent as [NULL], a
    string as a quoted literal. *)
Definition escape (v : jsval) : option sqlval :=
  match v with
  | JUndefined | JNull => Some SqlNull
  | JStr s => Some (SqlText s)
  | _ => bind_other v
  end.

(** [WHERE id = ?] *)
Definition matches (key : string) (r : task_row) : bool :=
  match key_of key with
  | Some k => id r =? k
  | None => false
  end.

(** Column checks, in strict SQL mode (the default of the server image
    the repository deploys).  A text that fits is stored as it is.  Of a
    text that does not, trailing spaces beyond the column's length are cut
    off (with a warning, in every SQL mode) and the rest is stored; any
    other character beyond the length is an error. *)
Definition check_title (v : sqlval) : sql_error + string :=
  match v with
  | SqlNull => inl ER_BAD_NULL_ERROR
  | SqlText s =>
      if fits VARCHAR_MAX s then inr s
      else if spaces_only (skip VARCHAR_MAX s) then inr (keep VARCHAR_MAX s)
      else inl ER_DATA_TOO_LONG
  end.

Definition check_description (v : sqlval) : sql_error + option string :=
  match v with
  | SqlNull => inr None
  | SqlText s =>
      if fits TEXT_MAX s then inr (Some s)
      else if spaces_only (skip TEXT_MAX s) then inr (Some (keep TEXT_MAX s))
      else inl ER_DATA_TOO_LONG
  end.

Definition bind (v : jsval) : sql_error + sqlval :=
  match escape v with
  | Some x => inr x
  | None => inl ER_PARSE_ERROR
  end.

(** The [tasks] table a pool connection (opened on [database]) sees. *)
Definition open_tasks (database : string) (st : store) : sql_error + table :=
  if online st then
    match schemas st !! database with
    | None => inl ER_BAD_DB_ERROR
    | Some None => inl ER_NO_SUCH_TABLE
    | Some (Some t) => inr t
    end
  else inl ECONNREFUSED.

Definition put_tasks (database : string) (t : table) (st : store) : store :=
  {| online := online st;
     schemas := <[database := Some t]> (schemas st);
     now := now st |}.

Definition count (key : string) (l : list task_row) : Z :=
  Z.of_nat (length (filter (λ r, matches key r = true) l)).

Definition set_row (t : string) (d : option string) (key : string)
    (r : task_row) : task_row :=
  if matches key r
  then {| id := id r; title := t; description := d; created_at := created_at r |}
  else r.

Definition insert_task (database : string) (vt vd : jsval) (st : store)
    : sql_error + (header * store) :=
  tbl ← open_tasks database st;
  pt ← bind vt;
  pd ← bind vd;
  t ← check_title pt;
  d ← check_description pd;
  if auto_increment tbl <=? INT_MAX then
    let r := {| id := auto_increment tbl; title := t; description := d;
                created_at := now st |} in
    inr ({| insertId := auto_increment tbl; affectedRows := 1 |},
         put_tasks database
           {| rows := rows tbl ++ [r];
              auto_increment := auto_increment tbl + 1 |} st)
  else inl ER_AUTOINC_READ_FAILED.

(** [affectedRows] counts the rows the [WHERE] clause found (the driver
    connects with the found-rows flag), and a column check is made only
    when a row is written. *)
Definition update_task (database : string) (vt vd : jsval) (key : string)
    (st : store) : sql_error + (header * store) :=
  tbl ← open_tasks database st;
  pt ← bind vt;
  pd ← bind vd;
  if count key (rows tbl) =? 0 then
    inr ({| insertId := 0; affectedRows := 0 |}, st)
  else
    t ← check_title pt;
    d ← check_description pd;
    inr ({| insertId := 0; affectedRows := count key (rows tbl) |},
         put_tasks database
           {| rows := set_row t d key <$> rows tbl;
              auto_increment := auto_increment tbl |} st).

Definition delete_by_id (database : string) (key : string) (st : store)
    : sql_error + (header * store) :=
  tbl ← open_tasks database st;
  if count key (rows tbl) =? 0 then
    inr ({| insertId := 0; affectedRows := 0 |}, st)
  else
    inr ({| insertId := 0; affectedRows := count key (rows tbl) |},
         put_tasks database
           {| rows := filter (λ r, matches key r = false) (rows tbl);
              auto_increment := auto_increment tbl |} st).

(** [CREATE DATABASE IF NOT EXISTS ..], on a connection with no schema
    selected. *)
Definition create_database (sql : string) (st : store)
    : sql_error + (header * store) :=
  if online st then
    match ddl_schema sql with
    | Some name =>
        inr ({| insertId := 0; affectedRows := 1 |},
             {| online := online st;
                schemas := match schemas st !! name with
                           | Some _ => schemas st
                           | None => <[name := None]> (schemas st)
                           end;
                now := now st |})
    | None => inl ER_PARSE_ERROR
    end
  else inl ECONNREFUSED.

(** [CREATE TABLE IF NOT EXISTS tasks (..)] *)
Definition create_table (database : string) (st : store)
    : sql_error + (header * store) :=
  if online st then
    match schemas st !! database with
    | None => inl ER_BAD_DB_ERROR
    | Some (Some _) => inr ({| insertId := 0; affectedRows := 0 |}, st)
    | Some None =>
        inr ({| insertId := 0; affectedRows := 0 |},
             put_tasks database {| rows := []; auto_increment := 1 |} st)
    end
  else inl ECONNREFUSED.

Definition exec (database : string) (s : statement) (st : store)
    : sql_error + (result_of s * store) :=
  match s as s0 return sql_error + (result_of s0 * store) with
  | SelectAll =>
      tbl ← open_tasks database st; inr (rows tbl, st)
  | SelectById key =>
      tbl ← open_tasks database st;
      inr (filter (λ r, matches key r = true) (rows tbl), st)
  | InsertTask vt vd => insert_task database vt vd st
  | UpdateTask vt vd key => update_task database vt vd key st
  | DeleteById key => delete_by_id database key st
  | CreateDatabase sql => create_database sql st
  | CreateTable => create_table database st
  end.
End Store.

(** ** The process

    [process.env], the module-level state the handlers share (the pool's
    server, the statements sent so far, the console, the listening socket
    and the pending timers), and the monad the handlers run in.  A console
    line is kept by its fixed text, without the error object or the port
    that follows it. *)

Record environ : Type := Environ {
  PORT : option string;
  DB_NAME : option string
}.

(** [process.env.X || dflt]: an unset or empty variable gives the default. *)
Definition env_or (x : option string) (dflt : string) : string :=
  match x with
  | Some s => if String.eqb s "" then dflt else s
  | None => dflt
  end.

Inductive callback : Type := InitDbCallback.

Record timer : Type := Timer { callback_of : callback; delay : Z }.

Record world : Type := World {
  db : store;
  sent : list statement;
  console : list string;
  listening : option jsval;
  timers : list timer
}.

Definition M (A : Type) : Type := world → (sql_error + A) * world.

#[global] Instance M_ret : MRet M := λ A a w, (inr a, w).

#[global] Instance M_bind : MBind M :=
  λ A B f m w,
    match m w with
    | (inl e, w') => (inl e, w')
    | (inr a, w') => f a w'
    end.

(** [try { body } catch (error) { handler }] *)
Definition try_catch {A : Type} (body : M A) (handler : sql_error → M A) : M A :=
  λ w,
    match body w with
    | (inl e, w') => handler e w'
    | (inr a, w') => (inr a, w')
    end.

(** The process after it has written [msg] to the console, and after it
    has sent [s] and the server has moved to [st]. *)
Definition logged (msg : string) (w : world) : world :=
  {| db := db w; sent := sent w; console := console w ++ [msg];
     listening := listening w; timers := timers w |}.

Definition queried (s : statement) (st : store) (w : world) : world :=
  {| db := st; sent := sent w ++ [s]; console := console w;
     listening := listening w; timers := timers w |}.

Definition console_log (msg : string) : M unit :=
  λ w, (inr (), logged msg w).

Definition console_error (msg : string) : M unit := console_log msg.

Definition scheduled (cb : callback) (ms : Z) (w : world) : world :=
  {| db := db w; sent := sent w; console := console w;
     listening := listening w;
     timers := timers w ++ [{| callback_of := cb; delay := ms |}] |}.

Definition setTimeout (cb : callback) (ms : Z) : M unit :=
  λ w, (inr (), scheduled cb ms w).

Definition listen (port : jsval) : M unit :=
  λ w, (inr (),
        {| db := db w; sent := sent w; console := console w;
           listening := Some port; timers := timers w |}).

Section Server.
Context `{D : Dialect} (env : environ).

(** [database: process.env.DB_NAME || 'tasksdb'] in the pool's options. *)
Definition database : string := env_or (DB_NAME env) "tasksdb".

(** [await pool.query(..)]: the statement is sent, the server's state
    changes as the statement says, and a rejection is thrown. *)
Definition pool_query (s : statement) : M (result_of s) :=
  λ w,
    match exec database s (db w) with
    | inl e => (inl e, queried s (db w) w)
    | inr (r, st) => (inr r, queried s st w)
    end.

(** The pool [initDb] opens without selecting a schema. *)
Definition tempPool_query (sql : string) : M header :=
  pool_query (CreateDatabase sql).

Definition row_object (r : task_row) : jsval :=
  JObj {[ "id" := JNum (id r);
          "title" := JStr (title r);
          "description" := match description r with
                           | Some d => JStr d
                           | None => JNull
                           end;
          "created_at" := JDate (created_at r) ]}.

(** [app.get('/api/health', ..)] *)
Definition get_health : M response :=
  mret (res_json 200 (JObj {[ "status" := JStr "healthy" ]})).

(** [app.get('/api/tasks', ..)] *)
Definition get_tasks : M response :=
  try_catch
    (rows ← pool_query SelectAll;
     mret (res_json 200 (JArr (row_object <$> rows))))
    (λ error,
       console_error "Error fetching tasks:";;
       mret (res_json 500 (error_body "Failed to fetch tasks"))).

(** [app.get('/api/tasks/:id', ..)] *)
Definition get_task (params_id : string) : M response :=
  try_catch
    (rows ← pool_query (SelectById params_id);
     if Z.of_nat (length rows) =? 0 then
       mret (res_json 404 (error_body "Task not found"))
     else
       mret (res_json 200 (default JUndefined (row_object <$> head rows))))
    (λ error,
       console_error "Error fetching task:";;
       mret (res_json 500 (error_body "Failed to fetch task"))).

(** [app.post('/api/tasks', ..)] *)
Definition post_task (req_body : gmap string jsval) : M response :=
  let title := prop req_body "title" in
  let description := prop req_body "description" in
  if negb (truthy title) then
    mret (res_json 400 (error_body "Title is required"))
  else
    try_catch
      (result ← pool_query (InsertTask title (js_or description (JStr "")));
       mret (res_json 201
               (JObj {[ "id" := JNum (insertId result);
                        "title" := title;
                        "description" := js_or description (JStr "") ]})))
      (λ error,
         console_error "Error creating task:";;
         mret (res_json 500 (error_body "Failed to create task"))).

(** [app.put('/api/tasks/:id', ..)] *)
Definition put_task (params_id : string) (req_body : gmap string jsval)
    : M response :=
  let title := prop req_body "title" in
  let description := prop req_body "description" in
  try_catch
    (result ← pool_query
                (UpdateTask title (js_or description (JStr "")) params_id);
     if affectedRows result =? 0 then
       mret (res_json 404 (error_body "Task not found"))
     else
       mret (res_json 200
               (JObj {[ "id" := JStr params_id;
                        "title" := title;
                        "description" := description ]})))
    (λ error,
       console_error "Error updating task:";;
       mret (res_json 500 (error_body "Failed to update task"))).

(** [app.delete('/api/tasks/:id', ..)] *)
Definition delete_task (params_id : string) : M response :=
  try_catch
    (result ← pool_query (DeleteById params_id);
     if affectedRows result =? 0 then
       mret (res_json 404 (error_body "Task not found"))
     else
       mret (res_end 204))
    (λ error,
       console_error "Error deleting task:";;
       mret (res_json 500 (error_body "Failed to delete task"))).

(** The text of the statement [initDb] sends first. *)
Definition create_database_sql : string :=
  "CREATE DATABASE IF NOT EXISTS " +:+ env_or (DB_NAME env) "tasksdb".

(** [async function initDb()] *)
Definition initDb : M unit :=
  try_catch
    (_ ← tempPool_query create_database_sql;
     _ ← pool_query CreateTable;
     console_log "Database and tables initialized successfully")
    (λ error,
       console_error "Error initializing database:";;
       setTimeout InitDbCallback 5000).

(** [const PORT = process.env.PORT || 5000; app.listen(PORT, () => ..)] *)
Definition port : jsval :=
  match PORT env with
  | Some s => if String.eqb s "" then JNum 5000 else JStr s
  | None => JNum 5000
  end.

Definition main : M unit :=
  listen port;;
  console_log "Server running on port";;
  initDb.

Definition handle (r : request) : M response :=
  match r with
  | GetHealth => get_health
  | GetTasks => get_tasks
  | GetTask i => get_task i
  | PostTask b => post_task b
  | PutTask i b => put_task i b
  | DeleteTask i => delete_task i
  end.

(** ** The event loop

    What can happen to the process: it starts, a pending timer fires, a
    request arrives, and (outside its control) the server goes up or down
    or its clock moves. *)
Inductive event : Type :=
| Start
| Fire
| Http (r : request)
| SetOnline (b : bool)
| Tick (t : Z).

Definition run {A : Type} (m : M A) (w : world) : option A * world :=
  match m w with
  | (inl _, w') => (None, w')
  | (inr a, w') => (Some a, w')
  end.

Definition with_store (f : store → store) (w : world) : world :=
  {| db := f (db w); sent := sent w; console := console w;
     listening := listening w; timers := timers w |}.

Definition step (e : event) (w : world) : option response * world :=
  match e with
  | Start => (None, (run main w).2)
  | Fire =>
      match timers w with
      | [] => (None, w)
      | t :: ts =>
          let w' := {| db := db w; sent := sent w; console := console w;
                       listening := listening w; timers := ts |} in
          match callback_of t with
          | InitDbCallback => (None, (run initDb w').2)
          end
      end
  | Http r =>
      match listening w with
      | Some _ => run (handle r) w
      | None => (None, w)
      end
  | SetOnline b =>
      (None,
       with_store (λ st, {| online := b; schemas := schemas st; now := now st |}) w)
  | Tick t =>
      (None,
       with_store (λ st, {| online := online st; schemas := schemas st; now := t |}) w)
  end.

(** Responses and final state of a sequence of events. *)
Fixpoint steps (es : list event) (w : world) : list (option response) * world :=
  match es with
  | [] => ([], w)
  | e :: es' =>
      let '(r, w') := step e w in
      let '(rs, w'') := steps es' w' in
      (r :: rs, w'')
  end.
End Server.

(** The process before [app.js] is loaded, next to a server in state [st]. *)
Definition boot (st : store) : world :=
  {| db := st; sent := []; console := []; listening := None; timers := [] |}.

(** The timer [initDb] arms when it fails: [setTimeout(initDb, 5000)]. *)
Definition retry : timer := {| callback_of := InitDbCallback; delay := 5000 |}.

(** The answer of each route when the statement it sends is rejected (the
    health route sends none, and the create route sends none for a falsy
    title). *)
Definition unavailable (r : request) : response :=
  match r with
  | GetHealth =>
      {| status := 200; body := Some (JObj {[ "status" := JStr "healthy" ]}) |}
  | GetTasks =>
      {| status := 500; body := Some (JObj {[ "error" := JStr "Failed to fetch tasks" ]}) |}
  | GetTask _ =>
      {| status := 500; body := Some (JObj {[ "error" := JStr "Failed to fetch task" ]}) |}
  | PostTask b =>
      if truthy (prop b "title")
      then {| status := 500;
              body := Some (JObj {[ "error" := JStr "Failed to create task" ]}) |}
      else {| status := 400;
              body := Some (JObj {[ "error" := JStr "Title is required" ]}) |}
  | PutTask _ _ =>
      {| status := 500; body := Some (JObj {[ "error" := JStr "Failed to update task" ]}) |}
  | DeleteTask _ =>
      {| status := 500; body := Some (JObj {[ "error" := JStr "Failed to delete task" ]}) |}
  end.

(** The key a 201 response returns, and the keys returned along a run. *)
Definition created (r : option response) : option Z :=
  match r with
  | Some r =>
      if status r =? 201 then
        match field r "id" with
        | Some (JNum i) => Some i
        | _ => None
        end
      else None
  | None => None
  end.

Definition created_ids (rs : list (option response)) : list Z := omap created rs.

(** A server with no schema yet. *)
Definition blank (up : bool) (clock : Z) : store :=
  {| online := up; schemas := ∅; now := clock |}.

(** ** A dialect to run the model with

    Keys are compared with decimal numerals, integers and booleans are bound
    as their text, arrays and objects are rejected, and a [CREATE DATABASE]
    text is accepted when what follows the keywords is a plain identifier. *)

Definition digit_of (c : Ascii.ascii) : option Z :=
  let n := Z.of_N (Ascii.N_of_ascii c) in
  if (48 <=? n) && (n <=? 57) then Some (n - 48) else None.

Fixpoint decimal_from (acc : Z) (s : string) : option Z :=
  match s with
  | EmptyString => Some acc
  | String c s' =>
      match digit_of c with
      | Some d => decimal_from (10 * acc + d) s'
      | None => None
      end
  end.

Definition decimal (s : string) : option Z :=
  match s with
  | EmptyString => None
  | _ => decimal_from 0 s
  end.

Definition ident_char (c : Ascii.ascii) : bool :=
  let n := Z.of_N (Ascii.N_of_ascii c) in
  ((48 <=? n) && (n <=? 57)) || ((65 <=? n) && (n <=? 90))
  || ((97 <=? n) && (n <=? 122)) || (n =? 95).

Fixpoint all_chars (p : Ascii.ascii → bool) (s : string) : bool :=
  match s with
  | EmptyString => true
  | String c s' => p c && all_chars p s'
  end.

Fixpoint strip_prefix (p s : string) : option string :=
  match p, s with
  | EmptyString, _ => Some s
  | String a p', String b s' =>
      if Ascii.eqb a b then strip_prefix p' s' else None
  | String _ _, EmptyString => None
  end.

Definition plain_schema (sql : string) : option string :=
  match strip_prefix "CREATE DATABASE IF NOT EXISTS " sql with
  | Some name =>
      if negb (String.eqb name "") && all_chars ident_char name
      then Some name else None
  | None => None
  end.

Definition plain_bind (v : jsval) : option sqlval :=
  match v with
  | JBool true => Some (SqlText "1")
  | JBool false => Some (SqlText "0")
  | JNum n => Some (SqlText (pretty n))
  | _ => None
  end.

Definition plain : Dialect :=
  {| key_of := decimal; bind_other := plain_bind; ddl_schema := plain_schema |}.

(** The answer of the three routes that take a key when no row has it. *)
Definition not_found : response :=
  {| status := 404; body := Some (JObj {[ "error" := JStr "Task not found" ]}) |}.

(** ** Keys

    What the key claims are stated with: the table of the pool's schema,
    the key the next insert will return, and the invariant that links the
    rows to the counter. *)

Section Keys.
Context (env : environ).

Definition table_at (st : store) : option (option table) :=
  schemas st !! database env.

(** The key the next successful insert will return. *)
Definition next_id (st : store) : Z :=
  match table_at st with
  | Some (Some t) => auto_increment t
  | _ => 1
  end.

(** Every key in the table was handed out by the counter. *)
Definition keys_below (st : store) : Prop :=
  ∀ t r, table_at st = Some (Some t) → r ∈ rows t → id r < auto_increment t.

(** One step of the store, as the keys see it: the counter does not go
    back, a returned key is the counter's old value, and the rows stay
    below the counter. *)
Definition moves (st st' : store) (r : option response) : Prop :=
  next_id st <= next_id st'
  ∧ (∀ i, created r = Some i → next_id st <= i < next_id st')
  ∧ (keys_below st → keys_below st').

End Keys.

(** ** Concrete runs

    The process started with no variable set, next to a reachable server
    with no schema: [initDb] succeeds at once and leaves an empty table. *)

Definition default_env : environ := {| PORT := None; DB_NAME := None |}.

Definition started : world :=
  (step (D := plain) default_env Start (boot (blank true 0))).2.

(** The rows a pool connection sees ([[]] when it sees no table). *)
Definition stored (env : environ) (w : world) : list task_row :=
  match open_tasks (database env) (db w) with
  | inr t => rows t
  | inl _ => []
  end.

Definition is_space (c : Ascii.ascii) : bool :=
  let n := Z.of_N (Ascii.N_of_ascii c) in
  (n =? 32) || ((9 <=? n) && (n <=? 13)).

(** A title that is missing, empty or made of white space only. *)
Definition blank_title (v : jsval) : bool :=
  match v with
  | JUndefined => true
  | JStr s => all_chars is_space s
  | _ => false
  end.

(** ** Routes, statements and the table, by kind *)

Definition is_get (r : request) : bool :=
  match r with
  | GetHealth | GetTasks | GetTask _ => true
  | _ => false
  end.

(** The two statements of [initDb]. *)
Definition is_ddl (s : statement) : bool :=
  match s with
  | CreateDatabase _ | CreateTable => true
  | _ => false
  end.

(** The table [CREATE TABLE IF NOT EXISTS] leaves where there was none. *)
Definition fresh_table : table := {| rows := []; auto_increment := 1 |}.

(** The ways the statements of [app.js] change the [tasks] table of a
    schema: not at all; the schema appears; the table appears, empty; one row
    is appended under the counter's key; rows are rewritten in place, keys
    and creation times kept; rows are removed, the others kept in order. *)
Inductive table_change : option (option table) → option (option table) → Prop :=
| change_none o :
    table_change o o
| change_schema :
    table_change None (Some None)
| change_created o :
    (∀ t, o ≠ Some (Some t)) →
    table_change o (Some (Some fresh_table))
| change_insert t r :
    id r = auto_increment t →
    table_change (Some (Some t))
      (Some (Some {| rows := rows t ++ [r];
                     auto_increment := auto_increment t + 1 |}))
| change_update t (f : task_row → task_row) :
    (∀ r, id (f r) = id r ∧ created_at (f r) = created_at r) →
    table_change (Some (Some t))
      (Some (Some {| rows := f <$> rows t; auto_increment := auto_increment t |}))
| change_delete t (gone : task_row → bool) :
    table_change (Some (Some t))
      (Some (Some {| rows := filter (λ r, gone r = false) (rows t);
                     auto_increment := auto_increment t |})).

(** The rows of the table are in increasing key order. *)
Definition ordered (env : environ) (st : store) : Prop :=
  ∀ t, table_at env st = Some (Some t) → StronglySorted Z.lt (id <$> rows t).

(** ** The browser client ([frontend/src/App.js])

    The component keeps the last list it fetched, the draft of a new task,
    the task being edited, a loading flag and an error message.  Its
    handlers talk to the server through [axios]; here a handler runs against
    the server's [step], and what is recorded is the state once the handler,
    and the [fetchTasks] it starts, have settled. *)

(** [String.prototype.trim] strips white space and line terminators; among
    the characters of the model's strings (code units below 256) these are
    9 to 13, 32 and 160. *)
Definition js_space (c : Ascii.ascii) : bool :=
  let n := Z.of_N (Ascii.N_of_ascii c) in
  ((9 <=? n) && (n <=? 13)) || (n =? 32) || (n =? 160).

Fixpoint trim_start (s : string) : string :=
  match s with
  | EmptyString => EmptyString
  | String c s' => if js_space c then trim_start s' else s
  end.

Fixpoint trim_end (s : string) : string :=
  match s with
  | EmptyString => EmptyString
  | String c s' =>
      match trim_end s' with
      | EmptyString => if js_space c then EmptyString else String c EmptyString
      | t => String c t
      end
  end.

Definition trim (s : string) : string := trim_end (trim_start s).

(** [axios] resolves with an answer whose status is 2xx and rejects on any
    other status and when there is no answer. *)
Definition axios (r : option response) : option response :=
  match r with
  | Some resp =>
      if (200 <=? status resp) && (status resp <? 300) then Some resp else None
  | None => None
  end.

(** [response.data] *)
Definition data (resp : response) : jsval := default (JStr "") (body resp).

Module App.

(** [newTask]: the two inputs of the form. *)
Record draft : Type := Draft { draft_title : string; draft_description : string }.

Record state : Type := State {
  tasks : jsval;
  newTask : draft;
  editingTask : option task_row;
  loading : bool;
  error : option string
}.

(** The [useState] initial values. *)
Definition initial : state :=
  {| tasks := JArr [];
     newTask := {| draft_title := ""; draft_description := "" |};
     editingTask := None;
     loading := true;
     error := None |}.

Definition setError (msg : option string) (c : state) : state :=
  {| tasks := tasks c; newTask := newTask c; editingTask := editingTask c;
     loading := loading c; error := msg |}.

Definition setNewTask (d : draft) (c : state) : state :=
  {| tasks := tasks c; newTask := d; editingTask := editingTask c;
     loading := loading c; error := error c |}.

Definition setEditingTask (t : option task_row) (c : state) : state :=
  {| tasks := tasks c; newTask := newTask c; editingTask := t;
     loading := loading c; error := error c |}.

Section Handlers.
Context `{D : Dialect} (env : environ).

(** [fetchTasks]: [loading] is raised, the list is asked for, and either
    the list and a cleared error or an error message is kept; [finally]
    lowers [loading]. *)
Definition fetchTasks (c : state) (w : world) : state * world :=
  let '(r, w') := step env (Http GetTasks) w in
  match axios r with
  | Some resp =>
      ({| tasks := data resp; newTask := newTask c; editingTask := editingTask c;
          loading := false; error := None |}, w')
  | None =>
      ({| tasks := tasks c; newTask := newTask c; editingTask := editingTask c;
          loading := false;
          error := Some "Failed to fetch tasks. Please check your backend service." |},
       w')
  end.

(** [useEffect(() => { fetchTasks(); }, [])] *)
Definition mount (w : world) : state * world := fetchTasks initial w.

(** [createTask] *)
Definition createTask (c : state) (w : world) : state * world :=
  if String.eqb (trim (draft_title (newTask c))) "" then
    (setError (Some "Task title is required.") c, w)
  else
    let '(r, w') :=
      step env
        (Http (PostTask {[ "title" := JStr (draft_title (newTask c));
                           "description" := JStr (draft_description (newTask c)) ]}))
        w in
    match axios r with
    | Some _ =>
        fetchTasks (setNewTask {| draft_title := ""; draft_description := "" |} c) w'
    | None => (setError (Some "Failed to create task. Please try again.") c, w')
    end.

(** [updateTask]; with no task being edited, reading [editingTask.title]
    throws and nothing is sent. *)
Definition updateTask (c : state) (w : world) : state * world :=
  match editingTask c with
  | None => (c, w)
  | Some t =>
      if String.eqb (trim (title t)) "" then
        (setError (Some "Task title is required.") c, w)
      else
        let '(r, w') :=
          step env
            (Http (PutTask (pretty (id t))
                     {[ "title" := JStr (title t);
                        "description" := JStr (default "" (description t)) ]}))
            w in
        match axios r with
        | Some _ => fetchTasks (setEditingTask None c) w'
        | None => (setError (Some "Failed to update task. Please try again.") c, w')
        end
  end.

(** [deleteTask(id)], with the answer to [window.confirm]. *)
Definition deleteTask (confirmed : bool) (key : Z) (c : state) (w : world)
    : state * world :=
  if negb confirmed then (c, w)
  else
    let '(r, w') := step env (Http (DeleteTask (pretty key))) w in
    match axios r with
    | Some _ => fetchTasks c w'
    | None => (setError (Some "Failed to delete task. Please try again.") c, w')
    end.
End Handlers.

End App.

(** * Properties *)

(** ** What [res.json] sends *)

Lemma to_json_error msg : to_json (error_body msg) = JObj {[ "error" := JStr msg ]}.
Proof. reflexivity. Qed.

Lemma truthy_defined v : truthy v = true → is_undefined v = false.
Proof. by destruct v. Qed.

Lemma js_or_defined v s : is_undefined (js_or v (JStr s)) = false.
Proof. unfold js_or. destruct (truthy v) eqn:E; [by apply truthy_defined | done]. Qed.

(** The body of the 201 response: three properties, none of them dropped. *)
Lemma to_json_created i t d :
  is_undefined t = false → is_undefined d = false →
  to_json (JObj {[ "id" := JNum i; "title" := t; "description" := d ]})
  = JObj {[ "id" := JNum i; "title" := to_json t; "description" := to_json d ]}.
Proof.
  intros Ht Hd. cbn [to_json]. f_equal.
  rewrite (omap_insert_Some _ _ _ _ (JNum i)) by done.
  rewrite (omap_insert_Some _ _ _ _ (to_json t)) by (by rewrite Ht).
  rewrite (omap_singleton_Some _ _ _ (to_json d)) by (by rewrite Hd).
  done.
Qed.

(** The body of the 200 response of an update, read property by property. *)
Lemma to_json_updated_lookup key t d k :
  match to_json (JObj {[ "id" := JStr key; "title" := t; "description" := d ]}) with
  | JObj o => o !! k
  | _ => None
  end
  = if String.eqb k "id" then Some (JStr key)
    else if String.eqb k "title" then (if is_undefined t then None else Some (to_json t))
    else if String.eqb k "description" then (if is_undefined d then None else Some (to_json d))
    else None.
Proof.
  cbn [to_json]. rewrite lookup_omap.
  destruct (String.eqb_spec k "id") as [->|Hid].
  { by rewrite lookup_insert_eq. }
  rewrite lookup_insert_ne by done.
  destruct (String.eqb_spec k "title") as [->|Ht].
  { by rewrite lookup_insert_eq. }
  rewrite lookup_insert_ne by done.
  destruct (String.eqb_spec k "description") as [->|Hd].
  { by rewrite lookup_singleton_eq. }
  by rewrite lookup_singleton_ne.
Qed.

Lemma row_object_created_at r :
  match to_json (row_object r) with
  | JObj o => o !! "created_at"
  | _ => None
  end = Some (JDate (created_at r)).
Proof.
  unfold row_object. cbn [to_json]. rewrite lookup_omap.
  rewrite !lookup_insert_ne by done. by rewrite lookup_singleton_eq.
Qed.

(** ** The store's statements *)

Section StoreFacts.
Context `{D : Dialect}.

Lemma count_zero key l :
  count key l = 0 ↔ ∀ r, r ∈ l → matches key r = false.
Proof.
  unfold count. induction l as [|x l IH].
  - split; [intros _ r Hr; by apply elem_of_nil in Hr | done].
  - rewrite filter_cons. destruct (decide (matches key x = true)) as [Hx|Hx].
    + split.
      * simpl. lia.
      * intros H. specialize (H x (list_elem_of_here _ _)). congruence.
    + rewrite IH. split.
      * intros H r Hr. apply elem_of_cons in Hr as [->|Hr]; [|by apply H].
        by destruct (matches key x).
      * intros H r Hr. apply H. by apply list_elem_of_further.
Qed.

Lemma count_pos key l r :
  r ∈ l → matches key r = true → (count key l =? 0) = false.
Proof.
  intros Hr Hm. apply Z.eqb_neq. intros H0.
  rewrite count_zero in H0. specialize (H0 r Hr). congruence.
Qed.

Lemma count_filter_out key l :
  count key (filter (λ r, matches key r = false) l) = 0.
Proof.
  apply count_zero. intros r Hr. by apply list_elem_of_filter in Hr as [? _].
Qed.

Lemma open_tasks_inv d st t :
  open_tasks d st = inr t → online st = true ∧ schemas st !! d = Some (Some t).
Proof.
  unfold open_tasks. destruct (online st); [|done].
  destruct (schemas st !! d) as [[?|]|]; naive_solver.
Qed.

Lemma open_put_tasks d t st :
  online st = true → open_tasks d (put_tasks d t st) = inr t.
Proof.
  intros Hon. unfold open_tasks, put_tasks. simpl. rewrite Hon.
  by rewrite lookup_insert_eq.
Qed.

(** Text and null are always bound. *)
Lemma bind_text s : bind (JStr s) = inr (SqlText s).
Proof. reflexivity. Qed.

Lemma bind_undefined : bind JUndefined = inr SqlNull.
Proof. reflexivity. Qed.

Lemma set_row_matches t d key r : matches key (set_row t d key r) = matches key r.
Proof. unfold set_row. destruct (matches key r) eqn:E; [|done]. unfold matches in *. done. Qed.
End StoreFacts.

(** ** The handlers, statement by statement

    Each handler sends at most one statement; its response and the state it
    leaves are read off the outcome of that statement. *)

Section HandlerFacts.
Context `{D : Dialect} (env : environ).

Lemma get_task_eq key w :
  get_task env key w =
  match exec (database env) (SelectById key) (db w) with
  | inl _ =>
      (inr (res_json 500 (error_body "Failed to fetch task")),
       logged "Error fetching task:" (queried (SelectById key) (db w) w))
  | inr (found, st) =>
      (inr (if Z.of_nat (length found) =? 0
            then res_json 404 (error_body "Task not found")
            else res_json 200 (default JUndefined (row_object <$> head found))),
       queried (SelectById key) st w)
  end.
Proof.
  unfold get_task, try_catch, mbind, M_bind, pool_query.
  destruct (exec _ _ _) as [e|[found st]]; [done|].
  by destruct (Z.of_nat (length found) =? 0).
Qed.

Lemma post_task_eq body w :
  post_task env body w =
  let title := prop body "title" in
  let description := js_or (prop body "description") (JStr "") in
  if truthy title then
    match insert_task (database env) title description (db w) with
    | inl _ =>
        (inr (res_json 500 (error_body "Failed to create task")),
         logged "Error creating task:"
           (queried (InsertTask title description) (db w) w))
    | inr (h, st) =>
        (inr (res_json 201
                (JObj {[ "id" := JNum (insertId h);
                         "title" := title;
                         "description" := description ]})),
         queried (InsertTask title description) st w)
    end
  else (inr (res_json 400 (error_body "Title is required")), w).
Proof.
  unfold post_task. cbv zeta. destruct (truthy (prop body "title")); [|done].
  unfold try_catch, mbind, M_bind, pool_query. cbn [negb exec].
  by destruct (insert_task _ _ _ _) as [e|[h st]].
Qed.

Lemma put_task_eq key body w :
  put_task env key body w =
  let title := prop body "title" in
  let description := prop body "description" in
  let s := UpdateTask title (js_or description (JStr "")) key in
  match update_task (database env) title (js_or description (JStr "")) key (db w) with
  | inl _ =>
      (inr (res_json 500 (error_body "Failed to update task")),
       logged "Error updating task:" (queried s (db w) w))
  | inr (h, st) =>
      (inr (if affectedRows h =? 0
            then res_json 404 (error_body "Task not found")
            else res_json 200
                   (JObj {[ "id" := JStr key;
                            "title" := title;
                            "description" := description ]})),
       queried s st w)
  end.
Proof.
  unfold put_task. cbv zeta.
  unfold try_catch, mbind, M_bind, pool_query. cbn [exec].
  destruct (update_task _ _ _ _ _) as [e|[h st]]; [done|].
  by destruct (affectedRows h =? 0).
Qed.

Lemma delete_task_eq key w :
  delete_task env key w =
  match delete_by_id (database env) key (db w) with
  | inl _ =>
      (inr (res_json 500 (error_body "Failed to delete task")),
       logged "Error deleting task:" (queried (DeleteById key) (db w) w))
  | inr (h, st) =>
      (inr (if affectedRows h =? 0
            then res_json 404 (error_body "Task not found")
            else res_end 204),
       queried (DeleteById key) st w)
  end.
Proof.
  unfold delete_task, try_catch, mbind, M_bind, pool_query. cbn [exec].
  destruct (delete_by_id _ _ _) as [e|[h st]]; [done|].
  by destruct (affectedRows h =? 0).
Qed.

Lemma get_tasks_eq w :
  get_tasks env w =
  match exec (database env) SelectAll (db w) with
  | inl _ =>
      (inr (res_json 500 (error_body "Failed to fetch tasks")),
       logged "Error fetching tasks:" (queried SelectAll (db w) w))
  | inr (found, st) =>
      (inr (res_json 200 (JArr (row_object <$> found))), queried SelectAll st w)
  end.
Proof.
  unfold get_tasks, try_catch, mbind, M_bind, pool_query.
  by destruct (exec _ _ _) as [e|[found st]].
Qed.

(** No handler lets a rejection escape. *)
Lemma handle_responds r w : ∃ resp, (handle env r w).1 = inr resp.
Proof.
  destruct r as [| |key|body|key body|key]; cbn [handle].
  - by eexists.
  - rewrite get_tasks_eq. destruct (exec _ _ _) as [e|[found st]]; by eexists.
  - rewrite get_task_eq. destruct (exec _ _ _) as [e|[found st]]; by eexists.
  - rewrite post_task_eq. cbv zeta. destruct (truthy _); [|by eexists].
    destruct (insert_task _ _ _ _) as [e|[h st]]; by eexists.
  - rewrite put_task_eq. cbv zeta.
    destruct (update_task _ _ _ _ _) as [e|[h st]]; by eexists.
  - rewrite delete_task_eq.
    destruct (delete_by_id _ _ _) as [e|[h st]]; by eexists.
Qed.
End HandlerFacts.

(** ** Create *)

(** C2, as stated, fails on a title of white space: the guard is [!title],
    a one-space title is truthy, and the row is inserted. *)
Lemma create_inserts_whitespace_title :
  let req := {[ "title" := JStr " " ]} in
  let out := run (post_task (D := plain) default_env req) started in
  blank_title (prop req "title") = true
  ∧ status <$> out.1 = Some 201
  ∧ sent out.2 = sent started ++ [InsertTask (JStr " ") (JStr "")]
  ∧ length (stored default_env started) = 0%nat
  ∧ length (stored default_env out.2) = 1%nat.
Proof. vm_compute. repeat split; reflexivity. Qed.

(** C2 (amended): a create request whose [title] is missing or falsy
    (absent, [null], the empty string, [0], [false]) is answered 400
    [{"error": "Title is required"}] and the process state is left as it
    was: no statement is sent, no row is inserted. *)
Theorem create_rejects_falsy_title `{D : Dialect} (env : environ)
    (body : gmap string jsval) (w : world) :
  truthy (prop body "title") = false →
  post_task env body w
  = (inr {| status := 400;
            body := Some (JObj {[ "error" := JStr "Title is required" ]}) |},
     w).
Proof.
  intros Hfalsy. rewrite post_task_eq. cbv zeta. by rewrite Hfalsy.
Qed.

Lemma create_rejects_falsy_title_witness :
  truthy (prop (∅ : gmap string jsval) "title") = false
  ∧ post_task (D := plain) default_env ∅ started
    = (inr {| status := 400;
              body := Some (JObj {[ "error" := JStr "Title is required" ]}) |},
       started).
Proof.
  split; [reflexivity|].
  apply (create_rejects_falsy_title (D := plain) default_env ∅ started).
  reflexivity.
Defined.

(** C1, as stated, fails on the response body: it has [id], [title] and
    [description] and no [created_at], so it is not the persisted task. *)
Lemma create_response_lacks_created_at :
  let req := {[ "title" := JStr "A"; "description" := JStr "B" ]} in
  let out := run (post_task (D := plain) default_env req) started in
  let row := {| id := 1; title := "A"; description := Some "B"; created_at := 0 |} in
  stored default_env out.2 = [row]
  ∧ status <$> out.1 = Some 201
  ∧ (out.1 ≫= λ r, field r "id") = Some (JNum 1)
  ∧ (out.1 ≫= λ r, field r "created_at") = None
  ∧ (out.1 ≫= body) ≠ Some (to_json (row_object row)).
Proof. vm_compute. repeat split; try reflexivity. discriminate. Qed.

(** C1 (amended): a create request with a non-empty title that the store
    accepts (the table is there, the title fits its column, the description
    can be bound and fits, a key is left) is answered 201 with exactly
    [id], [title] and [description]: the key the store assigned, the title
    as sent, the description as sent or [""] when it is missing.  The store
    sets [created_at] on the new row; the response body does not carry it. *)
Theorem create_returns_task `{D : Dialect} (env : environ)
    (req : gmap string jsval) (w : world) (tbl : table)
    (s : string) (pd : sqlval) (d : option string) :
  prop req "title" = JStr s →
  s ≠ "" →
  open_tasks (database env) (db w) = inr tbl →
  fits VARCHAR_MAX s = true →
  bind (js_or (prop req "description") (JStr "")) = inr pd →
  check_description pd = inr d →
  auto_increment tbl <= INT_MAX →
  ∃ r w',
    post_task env req w = (inr r, w')
    ∧ r = {| status := 201;
             body := Some (JObj {[
               "id" := JNum (auto_increment tbl);
               "title" := JStr s;
               "description" := to_json (js_or (prop req "description") (JStr "")) ]}) |}
    ∧ field r "created_at" = None
    ∧ sent w' = sent w ++ [InsertTask (JStr s) (js_or (prop req "description") (JStr ""))]
    ∧ open_tasks (database env) (db w')
      = inr {| rows := rows tbl
                 ++ [{| id := auto_increment tbl; title := s; description := d;
                        created_at := now (db w) |}];
               auto_increment := auto_increment tbl + 1 |}.
Proof.
  intros Htitle Hs Hopen Hfit Hbind Hdesc Hkey.
  assert (Hins : insert_task (database env) (JStr s)
                   (js_or (prop req "description") (JStr "")) (db w)
                 = inr ({| insertId := auto_increment tbl; affectedRows := 1 |},
                        put_tasks (database env)
                          {| rows := rows tbl
                               ++ [{| id := auto_increment tbl; title := s;
                                      description := d; created_at := now (db w) |}];
                             auto_increment := auto_increment tbl + 1 |} (db w))).
  { unfold insert_task. rewrite Hopen, Hbind. cbn [mbind sum_bind bind escape check_title].
    rewrite Hfit, Hdesc. cbn [mbind sum_bind].
    by apply Z.leb_le in Hkey as ->. }
  eexists _, _. split.
  { rewrite post_task_eq. cbv zeta. rewrite Htitle. cbn [truthy].
    apply String.eqb_neq in Hs as ->. cbn [negb]. rewrite Hins. reflexivity. }
  assert (Hbody : to_json (JObj {[ "id" := JNum (auto_increment tbl);
                                   "title" := JStr s;
                                   "description" := js_or (prop req "description") (JStr "") ]})
                  = JObj {[ "id" := JNum (auto_increment tbl);
                            "title" := JStr s;
                            "description" := to_json (js_or (prop req "description") (JStr "")) ]}).
  { by rewrite to_json_created by (done || apply js_or_defined). }
  unfold res_json. cbn [insertId]. rewrite Hbody.
  split; [done|]. split.
  { unfold field. cbn [body]. by rewrite !lookup_insert_ne, lookup_singleton_ne. }
  split; [done|].
  cbn [queried db]. apply open_put_tasks. by apply open_tasks_inv in Hopen as [? _].
Qed.

Lemma create_returns_task_witness :
  let req := {[ "title" := JStr "A"; "description" := JStr "B" ]} in
  ∃ r w',
    post_task (D := plain) default_env req started = (inr r, w')
    ∧ r = {| status := 201;
             body := Some (JObj {[ "id" := JNum 1; "title" := JStr "A";
                                   "description" := JStr "B" ]}) |}
    ∧ field r "created_at" = None
    ∧ sent w' = sent started ++ [InsertTask (JStr "A") (JStr "B")]
    ∧ open_tasks "tasksdb" (db w')
      = inr {| rows := [{| id := 1; title := "A"; description := Some "B";
                           created_at := 0 |}];
               auto_increment := 2 |}.
Proof.
  assert (Hkey : 1 <= INT_MAX) by (by vm_compute).
  exact (create_returns_task (D := plain) default_env
           {[ "title" := JStr "A"; "description" := JStr "B" ]} started
           {| rows := []; auto_increment := 1 |} "A" (SqlText "B") (Some "B")
           eq_refl ltac:(discriminate) eq_refl eq_refl eq_refl eq_refl Hkey).
Defined.

(** ** Get, update and delete *)

Section Missing.
Context `{D : Dialect} (env : environ).

Lemma update_task_missing vt vd pt pd key st tbl :
  open_tasks (database env) st = inr tbl →
  bind vt = inr pt → bind vd = inr pd →
  count key (rows tbl) = 0 →
  update_task (database env) vt vd key st
  = inr ({| insertId := 0; affectedRows := 0 |}, st).
Proof.
  intros Hopen Ht Hd H0. unfold update_task.
  rewrite Hopen, Ht, Hd. cbn [mbind sum_bind]. by rewrite H0.
Qed.

Lemma delete_by_id_missing key st tbl :
  open_tasks (database env) st = inr tbl →
  count key (rows tbl) = 0 →
  delete_by_id (database env) key st
  = inr ({| insertId := 0; affectedRows := 0 |}, st).
Proof.
  intros Hopen H0. unfold delete_by_id.
  rewrite Hopen. cbn [mbind sum_bind]. by rewrite H0.
Qed.

Lemma delete_task_missing key w tbl :
  open_tasks (database env) (db w) = inr tbl →
  count key (rows tbl) = 0 →
  delete_task env key w = (inr not_found, queried (DeleteById key) (db w) w).
Proof.
  intros Hopen H0. rewrite delete_task_eq.
  by rewrite (delete_by_id_missing _ _ _ Hopen H0).
Qed.

(** Whatever a delete finds, no row with that key is left behind. *)
Lemma delete_task_leaves_none key w tbl :
  open_tasks (database env) (db w) = inr tbl →
  ∃ tbl', open_tasks (database env) (db (delete_task env key w).2) = inr tbl'
          ∧ count key (rows tbl') = 0.
Proof.
  intros Hopen. rewrite delete_task_eq. unfold delete_by_id.
  rewrite Hopen. cbn [mbind sum_bind].
  destruct (count key (rows tbl) =? 0) eqn:E.
  - exists tbl. split; [done|]. by apply Z.eqb_eq.
  - eexists. split.
    + cbn [snd queried db]. apply open_put_tasks.
      by apply open_tasks_inv in Hopen as [? _].
    + apply count_filter_out.
Qed.
End Missing.

(** C3: with the table in place, a get, an update (whose values can be
    bound) or a delete on a key that no row has is answered 404
    [{"error": "Task not found"}] and leaves the store as it was.  Update and
    delete send one statement, the [UPDATE] or the [DELETE] itself, and no
    read before it.  After a delete of a key, whatever it found, a second and
    a third delete of that key are both answered 404. *)
Theorem missing_id_is_not_found `{D : Dialect} (env : environ)
    (key : string) (w : world) (tbl : table) :
  open_tasks (database env) (db w) = inr tbl →
  ((∀ r, r ∈ rows tbl → matches key r = false) →
     get_task env key w = (inr not_found, queried (SelectById key) (db w) w)
     ∧ (∀ req pt pd,
          bind (prop req "title") = inr pt →
          bind (js_or (prop req "description") (JStr "")) = inr pd →
          put_task env key req w
          = (inr not_found,
             queried (UpdateTask (prop req "title")
                        (js_or (prop req "description") (JStr "")) key)
               (db w) w))
     ∧ delete_task env key w = (inr not_found, queried (DeleteById key) (db w) w))
  ∧ (let w1 := (delete_task env key w).2 in
     let w2 := (delete_task env key w1).2 in
     (delete_task env key w1).1 = inr not_found
     ∧ (delete_task env key w2).1 = inr not_found
     ∧ db w2 = db w1
     ∧ sent w2 = sent w1 ++ [DeleteById key]).
Proof.
  intros Hopen. split.
  - intros Hnone. apply count_zero in Hnone. split; [|split].
    + rewrite get_task_eq. cbn [exec]. rewrite Hopen. cbn [mbind sum_bind].
      unfold count in Hnone. by rewrite Hnone.
    + intros req pt pd Ht Hd. rewrite put_task_eq. cbv zeta.
      by rewrite (update_task_missing _ _ _ _ _ _ _ _ Hopen Ht Hd Hnone).
    + by apply (delete_task_missing _ _ _ tbl).
  - cbv zeta.
    destruct (delete_task_leaves_none env key w tbl Hopen) as (tbl1 & Hopen1 & H1).
    rewrite (delete_task_missing env key _ tbl1 Hopen1 H1). cbn [fst snd].
    assert (Hopen2 : open_tasks (database env)
              (db (queried (DeleteById key) (db (delete_task env key w).2)
                     (delete_task env key w).2)) = inr tbl1) by done.
    by rewrite (delete_task_missing env key _ tbl1 Hopen2 H1).
Qed.

Lemma missing_id_is_not_found_witness :
  let w := (run (post_task (D := plain) default_env {[ "title" := JStr "A" ]}) started).2 in
  let req := {[ "title" := JStr "X" ]} in
  let w1 := (delete_task (D := plain) default_env "1" w).2 in
  let w2 := (delete_task (D := plain) default_env "1" w1).2 in
  stored default_env w
  = [{| id := 1; title := "A"; description := Some ""; created_at := 0 |}]
  ∧ get_task (D := plain) default_env "7" w
    = (inr not_found, queried (SelectById "7") (db w) w)
  ∧ put_task (D := plain) default_env "7" req w
    = (inr not_found, queried (UpdateTask (JStr "X") (JStr "") "7") (db w) w)
  ∧ delete_task (D := plain) default_env "7" w
    = (inr not_found, queried (DeleteById "7") (db w) w)
  ∧ (delete_task (D := plain) default_env "1" w).1 = inr (res_end 204)
  ∧ (delete_task (D := plain) default_env "1" w1).1 = inr not_found
  ∧ (delete_task (D := plain) default_env "1" w2).1 = inr not_found.
Proof.
  cbv zeta. split; [reflexivity|].
  assert (Hopen : open_tasks (database default_env)
            (db (run (post_task (D := plain) default_env {[ "title" := JStr "A" ]}) started).2)
          = inr {| rows := [{| id := 1; title := "A"; description := Some "";
                               created_at := 0 |}];
                   auto_increment := 2 |}) by reflexivity.
  destruct (missing_id_is_not_found (D := plain) default_env "7" _ _ Hopen)
    as [Hmissing _].
  destruct Hmissing as (Hget & Hput & Hdel).
  { intros r Hr. apply list_elem_of_singleton in Hr as ->. reflexivity. }
  destruct (missing_id_is_not_found (D := plain) default_env "1" _ _ Hopen)
    as [_ (Hsecond & Hthird & _)].
  split; [exact Hget|].
  split; [exact (Hput {[ "title" := JStr "X" ]} (SqlText "X") (SqlText "") eq_refl eq_refl)|].
  split; [exact Hdel|]. split; [reflexivity|].
  split; [exact Hsecond | exact Hthird].
Defined.

(** ** Update *)

Section Update.
Context `{D : Dialect} (env : environ).

(** An update that finds a row and whose values pass the column checks
    rewrites the rows it found. *)
Lemma update_task_found vt vd pt pd t d key st tbl r :
  open_tasks (database env) st = inr tbl →
  r ∈ rows tbl → matches key r = true →
  bind vt = inr pt → bind vd = inr pd →
  check_title pt = inr t → check_description pd = inr d →
  update_task (database env) vt vd key st
  = inr ({| insertId := 0; affectedRows := count key (rows tbl) |},
         put_tasks (database env)
           {| rows := set_row t d key <$> rows tbl;
              auto_increment := auto_increment tbl |} st).
Proof.
  intros Hopen Hr Hm Ht Hd Hct Hcd. unfold update_task.
  rewrite Hopen, Ht, Hd. cbn [mbind sum_bind].
  rewrite (count_pos _ _ _ Hr Hm). by rewrite Hct, Hcd.
Qed.

(** What an update that was not rejected has done. *)
Lemma update_task_inv vt vd key st h st' :
  update_task (database env) vt vd key st = inr (h, st') →
  ∃ tbl pd,
    open_tasks (database env) st = inr tbl
    ∧ bind vd = inr pd
    ∧ affectedRows h = count key (rows tbl)
    ∧ (affectedRows h = 0 ∧ st' = st
       ∨ ∃ pt t d,
           affectedRows h ≠ 0
           ∧ bind vt = inr pt
           ∧ check_title pt = inr t ∧ check_description pd = inr d
           ∧ st' = put_tasks (database env)
                     {| rows := set_row t d key <$> rows tbl;
                        auto_increment := auto_increment tbl |} st).
Proof.
  unfold update_task.
  destruct (open_tasks _ st) as [?|tbl] eqn:Hopen; [done|].
  destruct (bind vt) as [?|pt] eqn:Hvt; [done|].
  destruct (bind vd) as [?|pd] eqn:Hvd; [done|]. cbn [mbind sum_bind].
  destruct (count key (rows tbl) =? 0) eqn:E.
  - intros [= <- <-]. apply Z.eqb_eq in E.
    exists tbl, pd. split; [done|]. split; [done|]. split; [done|]. by left.
  - destruct (check_title pt) as [?|t] eqn:Hct; cbn [mbind sum_bind]; [done|].
    destruct (check_description pd) as [?|d] eqn:Hcd; cbn [mbind sum_bind]; [done|].
    intros [= <- <-]. apply Z.eqb_neq in E.
    exists tbl, pd. split; [done|]. split; [done|]. split; [done|].
    right. exists pt, t, d. by cbn [affectedRows].
Qed.

Lemma set_row_title t d key r :
  matches key r = true → title (set_row t d key r) = t.
Proof. intros H. unfold set_row. by rewrite H. Qed.

Lemma set_row_description t d key r :
  matches key r = true → description (set_row t d key r) = d.
Proof. intros H. unfold set_row. by rewrite H. Qed.

Lemma set_row_other t d key r :
  matches key r = false → set_row t d key r = r.
Proof. intros H. unfold set_row. by rewrite H. Qed.

(** After an update, a row with the key carries the new values. *)
Lemma updated_rows t d key (l : list task_row) r :
  r ∈ set_row t d key <$> l → matches key r = true →
  title r = t ∧ description r = d.
Proof.
  intros Hr Hm. apply list_elem_of_fmap in Hr as (r0 & -> & _).
  rewrite set_row_matches in Hm.
  by rewrite set_row_title, set_row_description.
Qed.
End Update.

(** C4: the update route makes no check of its own on the title.  With the
    table in place, a row with the key and a description the store takes, a
    PUT with the empty string as title is answered 200 and every row with
    that key is left with the empty title, while the same body sent to the
    create route is answered 400. *)
Theorem update_accepts_empty_title `{D : Dialect} (env : environ)
    (key : string) (req : gmap string jsval) (w : world) (tbl : table)
    (r0 : task_row) (pd : sqlval) (d : option string) :
  open_tasks (database env) (db w) = inr tbl →
  r0 ∈ rows tbl → matches key r0 = true →
  prop req "title" = JStr "" →
  bind (js_or (prop req "description") (JStr "")) = inr pd →
  check_description pd = inr d →
  ∃ r w',
    put_task env key req w = (inr r, w')
    ∧ status r = 200
    ∧ open_tasks (database env) (db w')
      = inr {| rows := set_row "" d key <$> rows tbl;
               auto_increment := auto_increment tbl |}
    ∧ set_row "" d key r0 ∈ stored env w'
    ∧ (∀ row, row ∈ stored env w' → matches key row = true → title row = "")
    ∧ status <$> (run (post_task env req) w).1 = Some 400.
Proof.
  intros Hopen Hr0 Hm Htitle Hbind Hdesc.
  assert (Hon : online (db w) = true) by (by apply open_tasks_inv in Hopen as [? _]).
  eexists _, _. split.
  { rewrite put_task_eq. cbv zeta. rewrite Htitle.
    rewrite (update_task_found env (JStr "") _ (SqlText "") pd "" d key (db w) tbl r0)
      by done.
    cbn [affectedRows]. by rewrite (count_pos _ _ _ Hr0 Hm). }
  assert (Hopen' : open_tasks (database env)
            (put_tasks (database env)
               {| rows := set_row "" d key <$> rows tbl;
                  auto_increment := auto_increment tbl |} (db w))
          = inr {| rows := set_row "" d key <$> rows tbl;
                   auto_increment := auto_increment tbl |})
    by (by apply open_put_tasks).
  split; [done|]. split; [done|].
  unfold stored. cbn [queried db]. rewrite Hopen'. cbn [rows].
  split; [by apply list_elem_of_fmap_2|]. split.
  - intros row Hrow Hmatch. by eapply updated_rows.
  - unfold run. rewrite post_task_eq. cbv zeta. by rewrite Htitle.
Qed.

Lemma update_accepts_empty_title_witness :
  let w := (run (post_task (D := plain) default_env {[ "title" := JStr "A" ]}) started).2 in
  let req := {[ "title" := JStr ""; "description" := JStr "B" ]} in
  ∃ r w',
    put_task (D := plain) default_env "1" req w = (inr r, w')
    ∧ status r = 200
    ∧ stored default_env w
      = [{| id := 1; title := "A"; description := Some ""; created_at := 0 |}]
    ∧ stored default_env w'
      = [{| id := 1; title := ""; description := Some "B"; created_at := 0 |}].
Proof.
  cbv zeta.
  assert (Hopen0 : open_tasks (database default_env)
            (db (run (post_task (D := plain) default_env {[ "title" := JStr "A" ]}) started).2)
          = inr {| rows := [{| id := 1; title := "A"; description := Some "";
                               created_at := 0 |}];
                   auto_increment := 2 |}) by reflexivity.
  destruct (update_accepts_empty_title (D := plain) default_env "1"
              {[ "title" := JStr ""; "description" := JStr "B" ]} _ _
              {| id := 1; title := "A"; description := Some ""; created_at := 0 |}
              (SqlText "B") (Some "B")
              Hopen0 (list_elem_of_here _ _))
    as (r & w' & Hput & Hstatus & Hopen & _); [by vm_compute..|].
  exists r, w'. split; [exact Hput|]. split; [exact Hstatus|].
  split; [reflexivity|]. unfold stored. by rewrite Hopen.
Defined.

(** C9: with the table in place and a row with the key, a PUT whose body
    has no [title] is answered 500 [{"error": "Failed to update task"}] (not
    400): the driver binds the missing title as [NULL], the [NOT NULL]
    column rejects it, the handler's [catch] answers with the generic
    message, and the store is left as it was. *)
Theorem update_without_title_is_500 `{D : Dialect} (env : environ)
    (key : string) (req : gmap string jsval) (w : world) (tbl : table)
    (r0 : task_row) :
  open_tasks (database env) (db w) = inr tbl →
  r0 ∈ rows tbl → matches key r0 = true →
  req !! "title" = None →
  let s := UpdateTask JUndefined (js_or (prop req "description") (JStr "")) key in
  put_task env key req w
  = (inr {| status := 500;
            body := Some (JObj {[ "error" := JStr "Failed to update task" ]}) |},
     logged "Error updating task:" (queried s (db w) w))
  ∧ db (put_task env key req w).2 = db w
  ∧ (∀ pd, bind (js_or (prop req "description") (JStr "")) = inr pd →
       exec (database env) s (db w) = inl ER_BAD_NULL_ERROR).
Proof.
  intros Hopen Hr0 Hm Hmissing s.
  assert (Htitle : prop req "title" = JUndefined) by (unfold prop; by rewrite Hmissing).
  assert (Hrej : ∃ e, update_task (database env) JUndefined
                        (js_or (prop req "description") (JStr "")) key (db w) = inl e
                      ∧ ∀ pd, bind (js_or (prop req "description") (JStr "")) = inr pd →
                              e = ER_BAD_NULL_ERROR).
  { unfold update_task. rewrite Hopen, bind_undefined. cbn [mbind sum_bind].
    destruct (bind (js_or (prop req "description") (JStr ""))) as [e|pd];
      cbn [mbind sum_bind].
    - exists e. by split.
    - rewrite (count_pos _ _ _ Hr0 Hm). cbn [check_title mbind sum_bind].
      exists ER_BAD_NULL_ERROR. by split. }
  destruct Hrej as (e & Hrej & Hnull).
  assert (Hput : put_task env key req w
    = (inr {| status := 500;
              body := Some (JObj {[ "error" := JStr "Failed to update task" ]}) |},
       logged "Error updating task:" (queried s (db w) w))).
  { rewrite put_task_eq. cbv zeta. rewrite Htitle. by rewrite Hrej. }
  split; [exact Hput|]. split; [by rewrite Hput|].
  intros pd Hpd. unfold s. cbn [exec]. rewrite Hrej. f_equal. by eapply Hnull.
Qed.

Lemma update_without_title_is_500_witness :
  let w := (run (post_task (D := plain) default_env {[ "title" := JStr "A" ]}) started).2 in
  let req := {[ "description" := JStr "B" ]} in
  stored default_env w
  = [{| id := 1; title := "A"; description := Some ""; created_at := 0 |}]
  ∧ put_task (D := plain) default_env "1" req w
    = (inr {| status := 500;
              body := Some (JObj {[ "error" := JStr "Failed to update task" ]}) |},
       logged "Error updating task:"
         (queried (UpdateTask JUndefined (JStr "B") "1") (db w) w))
  ∧ db (put_task (D := plain) default_env "1" req w).2 = db w.
Proof.
  cbv zeta. split; [reflexivity|].
  assert (Hopen0 : open_tasks (database default_env)
            (db (run (post_task (D := plain) default_env {[ "title" := JStr "A" ]}) started).2)
          = inr {| rows := [{| id := 1; title := "A"; description := Some "";
                               created_at := 0 |}];
                   auto_increment := 2 |}) by reflexivity.
  destruct (update_without_title_is_500 (D := plain) default_env "1"
              {[ "description" := JStr "B" ]} _ _
              {| id := 1; title := "A"; description := Some ""; created_at := 0 |}
              Hopen0 (list_elem_of_here _ _))
    as (Hput & Hdb & _); [by vm_compute..|].
  split; [exact Hput | exact Hdb].
Defined.

(** ** The description column *)

Section Insert.
Context `{D : Dialect} (env : environ).

(** What an insert that was not rejected has done. *)
Lemma insert_task_inv vt vd st h st' :
  insert_task (database env) vt vd st = inr (h, st') →
  ∃ tbl pt pd t d,
    open_tasks (database env) st = inr tbl
    ∧ bind vt = inr pt ∧ bind vd = inr pd
    ∧ check_title pt = inr t ∧ check_description pd = inr d
    ∧ auto_increment tbl <= INT_MAX
    ∧ insertId h = auto_increment tbl
    ∧ st' = put_tasks (database env)
              {| rows := rows tbl
                   ++ [{| id := auto_increment tbl; title := t; description := d;
                          created_at := now st |}];
                 auto_increment := auto_increment tbl + 1 |} st.
Proof.
  unfold insert_task.
  destruct (open_tasks _ st) as [?|tbl] eqn:Hopen; [done|].
  destruct (bind vt) as [?|pt] eqn:Hvt; [done|].
  destruct (bind vd) as [?|pd] eqn:Hvd; [done|]. cbn [mbind sum_bind].
  destruct (check_title pt) as [?|t] eqn:Hct; cbn [mbind sum_bind]; [done|].
  destruct (check_description pd) as [?|d] eqn:Hcd; cbn [mbind sum_bind]; [done|].
  destruct (auto_increment tbl <=? INT_MAX) eqn:E; [|done].
  intros [= <- <-]. apply Z.leb_le in E.
  by exists tbl, pt, pd, t, d.
Qed.

Lemma count_nonzero key (l : list task_row) :
  count key l ≠ 0 → ∃ r, r ∈ l ∧ matches key r = true.
Proof.
  unfold count. intros Hne.
  destruct (filter (λ r, matches key r = true) l) as [|r f] eqn:E; [done|].
  assert (Hr : r ∈ filter (λ r, matches key r = true) l)
    by (rewrite E; apply list_elem_of_here).
  apply list_elem_of_filter in Hr as [Hm Hr]. by exists r.
Qed.

(** The empty string is bound as text and passes the [TEXT] check. *)
Lemma empty_description pd d :
  bind (JStr "") = inr pd → check_description pd = inr d → d = Some "".
Proof. intros [= <-]. cbn. by intros [= <-]. Qed.
End Insert.

(** C6: when the body has no [description], what a create or an update
    writes in the [description] column is the empty string, never [NULL].
    After either request every row is a row that was there before or has
    the description [""]; after a 201 the new row (the one with the returned
    key) has it, and after a 200 every row with the key has it.  And the
    writes do happen: a create with a title the store takes is answered 201,
    sends the [INSERT] with [""] as description and appends a row whose
    description is [""]; an update of a key that some row has, with a title
    the store takes, is answered 200, sends the [UPDATE] with [""] as
    description and leaves every row with that key with the description
    [""]. *)
Theorem omitted_description_is_stored_empty `{D : Dialect} (env : environ)
    (req : gmap string jsval) (w : world) (tbl : table) :
  req !! "description" = None →
  open_tasks (database env) (db w) = inr tbl →
  (let out := post_task env req w in
   (∀ row, row ∈ stored env out.2 → row ∈ rows tbl ∨ description row = Some "")
   ∧ (∀ r, out.1 = inr r → status r = 201 →
        ∃ row, stored env out.2 = rows tbl ++ [row]
               ∧ field r "id" = Some (JNum (id row))
               ∧ description row = Some "")
   ∧ (∀ s, prop req "title" = JStr s → s ≠ "" →
           fits VARCHAR_MAX s = true →
           auto_increment tbl <= INT_MAX →
           ∃ r, out.1 = inr r
                ∧ status r = 201
                ∧ sent out.2 = sent w ++ [InsertTask (JStr s) (JStr "")]
                ∧ stored env out.2
                  = rows tbl
                    ++ [{| id := auto_increment tbl; title := s;
                           description := Some ""; created_at := now (db w) |}]))
  ∧ (∀ key,
       let out := put_task env key req w in
       (∀ row, row ∈ stored env out.2 → row ∈ rows tbl ∨ description row = Some "")
       ∧ (∀ r, out.1 = inr r → status r = 200 →
            (∃ row, row ∈ stored env out.2 ∧ matches key row = true)
            ∧ (∀ row, row ∈ stored env out.2 → matches key row = true →
                 description row = Some ""))
       ∧ (∀ s r0, prop req "title" = JStr s →
                  fits VARCHAR_MAX s = true →
                  r0 ∈ rows tbl → matches key r0 = true →
                  ∃ r, out.1 = inr r
                       ∧ status r = 200
                       ∧ sent out.2 = sent w ++ [UpdateTask (JStr s) (JStr "") key]
                       ∧ stored env out.2 = set_row s (Some "") key <$> rows tbl
                       ∧ set_row s (Some "") key r0 ∈ stored env out.2
                       ∧ description (set_row s (Some "") key r0) = Some "")).
Proof.
  intros Hmissing Hopen.
  assert (Hdesc : prop req "description" = JUndefined)
    by (unfold prop; by rewrite Hmissing).
  assert (Hon : online (db w) = true) by (by apply open_tasks_inv in Hopen as [? _]).
  assert (Hold : stored env w = rows tbl) by (unfold stored; by rewrite Hopen).
  assert (Hcreate : ∀ s, prop req "title" = JStr s → s ≠ "" →
            fits VARCHAR_MAX s = true → auto_increment tbl <= INT_MAX →
            post_task env req w
            = (inr (res_json 201
                      (JObj {[ "id" := JNum (auto_increment tbl);
                               "title" := JStr s;
                               "description" := JStr "" ]})),
               queried (InsertTask (JStr s) (JStr ""))
                 (put_tasks (database env)
                    {| rows := rows tbl
                         ++ [{| id := auto_increment tbl; title := s;
                                description := Some ""; created_at := now (db w) |}];
                       auto_increment := auto_increment tbl + 1 |} (db w)) w)).
  { intros s Ht Hs Hfit Hkey. rewrite post_task_eq. cbv zeta. rewrite Hdesc, Ht.
    change (js_or JUndefined (JStr "")) with (JStr "").
    cbn [truthy]. apply String.eqb_neq in Hs as ->. cbn [negb].
    unfold insert_task. rewrite Hopen.
    cbn [mbind sum_bind bind escape check_title]. rewrite Hfit.
    change (check_description (SqlText "")) with (inr (Some "") : sql_error + option string).
    cbn [mbind sum_bind]. by apply Z.leb_le in Hkey as ->. }
  assert (Hupdate : ∀ key s r0, prop req "title" = JStr s →
            fits VARCHAR_MAX s = true → r0 ∈ rows tbl → matches key r0 = true →
            put_task env key req w
            = (inr (res_json 200
                      (JObj {[ "id" := JStr key; "title" := JStr s;
                               "description" := JUndefined ]})),
               queried (UpdateTask (JStr s) (JStr "") key)
                 (put_tasks (database env)
                    {| rows := set_row s (Some "") key <$> rows tbl;
                       auto_increment := auto_increment tbl |} (db w)) w)).
  { intros key s r0 Ht Hfit Hr0 Hm. rewrite put_task_eq. cbv zeta. rewrite Hdesc, Ht.
    change (js_or JUndefined (JStr "")) with (JStr "").
    rewrite (update_task_found env (JStr s) (JStr "") (SqlText s) (SqlText "") s
               (Some "") key (db w) tbl r0)
      by (done || (cbn [check_title]; by rewrite Hfit)).
    cbn [affectedRows]. by rewrite (count_pos _ _ _ Hr0 Hm). }
  split.
  - assert (Hcases :
      (∀ row, row ∈ stored env (post_task env req w).2 →
              row ∈ rows tbl ∨ description row = Some "")
      ∧ (∀ r, (post_task env req w).1 = inr r → status r = 201 →
           ∃ row, stored env (post_task env req w).2 = rows tbl ++ [row]
                  ∧ field r "id" = Some (JNum (id row))
                  ∧ description row = Some "")).
    {
      cbv zeta. rewrite post_task_eq. cbv zeta. rewrite Hdesc.
      change (js_or JUndefined (JStr "")) with (JStr "").
      destruct (truthy (prop req "title")) eqn:Htruthy.
      2:{ cbn [fst snd]. rewrite Hold. split; [by left | by intros r [= <-]]. }
      destruct (insert_task _ _ _ _) as [e|[h st]] eqn:Hins; cbn [fst snd].
      { split; [|by intros r [= <-]].
        unfold stored. cbn [logged queried db]. rewrite Hopen. by left. }
      apply insert_task_inv in Hins
        as (tbl0 & pt & pd & t & d & Hopen0 & _ & Hpd & _ & Hcd & _ & Hid & ->).
      rewrite Hopen in Hopen0. injection Hopen0 as <-.
      apply (empty_description pd d Hpd) in Hcd as ->.
      assert (Hnew : stored env (queried (InsertTask (prop req "title") (JStr ""))
                       (put_tasks (database env)
                          {| rows := rows tbl
                               ++ [{| id := auto_increment tbl; title := t;
                                      description := Some ""; created_at := now (db w) |}];
                             auto_increment := auto_increment tbl + 1 |} (db w)) w)
                     = rows tbl
                       ++ [{| id := auto_increment tbl; title := t;
                              description := Some ""; created_at := now (db w) |}]).
      { unfold stored. cbn [queried db]. by rewrite open_put_tasks. }
      rewrite Hnew. split.
      + intros row Hrow. apply elem_of_app in Hrow as [Hrow|Hrow]; [by left|].
        apply list_elem_of_singleton in Hrow as ->. by right.
      + intros r [= <-] _. eexists. split; [done|]. split; [|done].
        unfold res_json, field. cbn [body].
        rewrite to_json_created by (done || by apply truthy_defined).
        rewrite lookup_insert_eq. by rewrite Hid.
    }
    cbv zeta. destruct Hcases as [Hrows Hnew]. split; [exact Hrows|]. split; [exact Hnew|].
    intros s Ht Hs Hfit Hkey. rewrite (Hcreate s Ht Hs Hfit Hkey). cbn [fst snd].
    eexists. split; [done|]. split; [done|]. split; [done|].
    unfold stored. cbn [queried db]. by rewrite open_put_tasks.
  - intros key.
    assert (Hcases :
      (∀ row, row ∈ stored env (put_task env key req w).2 →
              row ∈ rows tbl ∨ description row = Some "")
      ∧ (∀ r, (put_task env key req w).1 = inr r → status r = 200 →
           (∃ row, row ∈ stored env (put_task env key req w).2
                   ∧ matches key row = true)
           ∧ (∀ row, row ∈ stored env (put_task env key req w).2 →
                     matches key row = true → description row = Some ""))).
    {
      cbv zeta. rewrite put_task_eq. cbv zeta. rewrite Hdesc.
      change (js_or JUndefined (JStr "")) with (JStr "").
      destruct (update_task _ _ _ _ _) as [e|[h st]] eqn:Hupd; cbn [fst snd].
      { split; [|by intros r [= <-]].
        unfold stored. cbn [logged queried db]. rewrite Hopen. by left. }
      apply update_task_inv in Hupd as (tbl0 & pd & Hopen0 & Hpd & Hcount & Hcase).
      rewrite Hopen in Hopen0. injection Hopen0 as <-.
      destruct Hcase as [[H0 ->]|(pt & t & d & Hne & _ & _ & Hcd & ->)].
      { rewrite H0. cbn [Z.eqb]. split; [|by intros r [= <-]].
        unfold stored. cbn [queried db]. rewrite Hopen. by left. }
      apply (empty_description pd d Hpd) in Hcd as ->.
      assert (Hnew : stored env (queried (UpdateTask (prop req "title") (JStr "") key)
                       (put_tasks (database env)
                          {| rows := set_row t (Some "") key <$> rows tbl;
                             auto_increment := auto_increment tbl |} (db w)) w)
                     = set_row t (Some "") key <$> rows tbl).
      { unfold stored. cbn [queried db]. by rewrite open_put_tasks. }
      rewrite Hnew. split.
      + intros row Hrow. apply list_elem_of_fmap in Hrow as (r0 & -> & Hr0).
        destruct (matches key r0) eqn:Hm.
        * right. by apply set_row_description.
        * left. by rewrite set_row_other.
      + intros r _ _. split.
        * rewrite Hcount in Hne. apply count_nonzero in Hne as (r0 & Hr0 & Hm).
          exists (set_row t (Some "") key r0). split.
          -- by apply list_elem_of_fmap_2.
          -- by rewrite set_row_matches.
        * intros row Hrow Hm. by eapply updated_rows.
    }
    cbv zeta. destruct Hcases as [Hrows Hnew]. split; [exact Hrows|]. split; [exact Hnew|].
    intros s r0 Ht Hfit Hr0 Hm. rewrite (Hupdate key s r0 Ht Hfit Hr0 Hm). cbn [fst snd].
    assert (Hafter : stored env
              (queried (UpdateTask (JStr s) (JStr "") key)
                 (put_tasks (database env)
                    {| rows := set_row s (Some "") key <$> rows tbl;
                       auto_increment := auto_increment tbl |} (db w)) w)
            = set_row s (Some "") key <$> rows tbl).
    { unfold stored. cbn [queried db]. by rewrite open_put_tasks. }
    eexists. split; [done|]. split; [done|]. split; [done|]. split; [exact Hafter|].
    split; [rewrite Hafter; by apply list_elem_of_fmap_2|].
    by apply set_row_description.
Qed.

Lemma omitted_description_is_stored_empty_witness :
  let w := (run (post_task (D := plain) default_env
                   {[ "title" := JStr "A"; "description" := JStr "B" ]}) started).2 in
  let req := {[ "title" := JStr "A2" ]} in
  stored default_env w
  = [{| id := 1; title := "A"; description := Some "B"; created_at := 0 |}]
  ∧ (∃ r, (post_task (D := plain) default_env req w).1 = inr r
          ∧ status r = 201
          ∧ sent (post_task (D := plain) default_env req w).2
            = sent w ++ [InsertTask (JStr "A2") (JStr "")]
          ∧ stored default_env (post_task (D := plain) default_env req w).2
            = [{| id := 1; title := "A"; description := Some "B"; created_at := 0 |};
               {| id := 2; title := "A2"; description := Some ""; created_at := 0 |}])
  ∧ (∃ r, (put_task (D := plain) default_env "1" req w).1 = inr r
          ∧ status r = 200
          ∧ sent (put_task (D := plain) default_env "1" req w).2
            = sent w ++ [UpdateTask (JStr "A2") (JStr "") "1"]
          ∧ stored default_env (put_task (D := plain) default_env "1" req w).2
            = [{| id := 1; title := "A2"; description := Some ""; created_at := 0 |}]).
Proof.
  cbv zeta. split; [reflexivity|].
  assert (Hopen : open_tasks (database default_env)
            (db (run (post_task (D := plain) default_env
                        {[ "title" := JStr "A"; "description" := JStr "B" ]}) started).2)
          = inr {| rows := [{| id := 1; title := "A"; description := Some "B";
                               created_at := 0 |}];
                   auto_increment := 2 |}) by reflexivity.
  assert (Hmissing : ({[ "title" := JStr "A2" ]} : gmap string jsval) !! "description"
                     = None) by reflexivity.
  destruct (omitted_description_is_stored_empty (D := plain) default_env
              {[ "title" := JStr "A2" ]} _ _ Hmissing Hopen)
    as [(_ & _ & Hcreate) Hupdate].
  assert (Hmax : 2 <= INT_MAX) by (by vm_compute).
  destruct (Hcreate "A2") as (r1 & Hr1 & Hs1 & Hsent1 & Hrows1);
    [by vm_compute|discriminate|by vm_compute|exact Hmax|].
  destruct (Hupdate "1") as (_ & _ & Hput).
  destruct (Hput "A2" {| id := 1; title := "A"; description := Some "B"; created_at := 0 |})
    as (r2 & Hr2 & Hs2 & Hsent2 & Hrows2 & _);
    [by vm_compute|by vm_compute|apply list_elem_of_here|by vm_compute|].
  split.
  - exists r1. split; [exact Hr1|]. split; [exact Hs1|]. split; [exact Hsent1|exact Hrows1].
  - exists r2. split; [exact Hr2|]. split; [exact Hs2|]. split; [exact Hsent2|].
    rewrite Hrows2. reflexivity.
Defined.

(** ** The body of an update's response *)

(** C8: the 200 response of an update is built from the request, not from
    the row: [id] is the path parameter, a string; [description] is the
    request's own value, left out of the JSON when the request had none
    (while the statement sent to the store carries [""] in its place);
    [created_at] is never there.  So the body is never the persisted task. *)
Theorem update_response_echoes_request `{D : Dialect} (env : environ)
    (key : string) (req : gmap string jsval) (w w' : world) (r : response) :
  put_task env key req w = (inr r, w') →
  status r = 200 →
  field r "id" = Some (JStr key)
  ∧ field r "description"
    = (if is_undefined (prop req "description") then None
       else Some (to_json (prop req "description")))
  ∧ field r "created_at" = None
  ∧ sent w' = sent w ++ [UpdateTask (prop req "title")
                           (js_or (prop req "description") (JStr "")) key]
  ∧ (req !! "description" = None →
       field r "description" = None
       ∧ sent w' = sent w ++ [UpdateTask (prop req "title") (JStr "") key])
  ∧ (∀ row, body r ≠ Some (to_json (row_object row))).
Proof.
  intros Hput Hstatus. rewrite put_task_eq in Hput. cbv zeta in Hput.
  destruct (update_task _ _ _ _ _) as [e|[h st]].
  { injection Hput as <- <-. done. }
  destruct (affectedRows h =? 0).
  { injection Hput as <- <-. done. }
  injection Hput as <- <-.
  pose proof (to_json_updated_lookup key (prop req "title") (prop req "description"))
    as Hlookup.
  assert (Hfield : ∀ k, field (res_json 200
                     (JObj {[ "id" := JStr key; "title" := prop req "title";
                              "description" := prop req "description" ]})) k
                   = match to_json (JObj {[ "id" := JStr key;
                                            "title" := prop req "title";
                                            "description" := prop req "description" ]}) with
                     | JObj o => o !! k
                     | _ => None
                     end) by done.
  split; [by rewrite Hfield, Hlookup|].
  split; [by rewrite Hfield, Hlookup|].
  split; [by rewrite Hfield, Hlookup|].
  split; [done|]. split.
  - intros Hmissing.
    assert (Hdesc : prop req "description" = JUndefined)
      by (unfold prop; by rewrite Hmissing).
    split; [by rewrite Hfield, Hlookup, Hdesc|].
    cbn [queried sent]. by rewrite Hdesc.
  - intros row Heq.
    assert (Hc : field (res_json 200
                   (JObj {[ "id" := JStr key; "title" := prop req "title";
                            "description" := prop req "description" ]})) "created_at"
                 = Some (JDate (created_at row))).
    { unfold field. rewrite Heq. apply row_object_created_at. }
    by rewrite Hfield, Hlookup in Hc.
Qed.

Lemma update_response_echoes_request_witness :
  let w := (run (post_task (D := plain) default_env {[ "title" := JStr "A" ]}) started).2 in
  let req := {[ "title" := JStr "A2" ]} in
  let r := {| status := 200;
              body := Some (JObj {[ "id" := JStr "1"; "title" := JStr "A2" ]}) |} in
  let w' := (put_task (D := plain) default_env "1" req w).2 in
  put_task (D := plain) default_env "1" req w = (inr r, w')
  ∧ stored default_env w'
    = [{| id := 1; title := "A2"; description := Some ""; created_at := 0 |}]
  ∧ field r "id" = Some (JStr "1")
  ∧ field r "description" = None
  ∧ field r "created_at" = None
  ∧ sent w' = sent w ++ [UpdateTask (JStr "A2") (JStr "") "1"].
Proof.
  cbv zeta.
  assert (Hput : put_task (D := plain) default_env "1" {[ "title" := JStr "A2" ]}
            (run (post_task (D := plain) default_env {[ "title" := JStr "A" ]}) started).2
          = (inr {| status := 200;
                    body := Some (JObj {[ "id" := JStr "1"; "title" := JStr "A2" ]}) |},
             (put_task (D := plain) default_env "1" {[ "title" := JStr "A2" ]}
                (run (post_task (D := plain) default_env {[ "title" := JStr "A" ]})
                   started).2).2)) by reflexivity.
  destruct (update_response_echoes_request (D := plain) default_env "1" _ _ _ _
              Hput eq_refl)
    as (Hid & _ & Hcreated & _ & Hmissing & _).
  destruct Hmissing as [Hdesc Hsent]; [reflexivity|].
  split; [exact Hput|]. split; [reflexivity|].
  split; [exact Hid|]. split; [exact Hdesc|]. split; [exact Hcreated|]. exact Hsent.
Defined.

(** ** Start-up *)

Section Startup.
Context `{D : Dialect} (env : environ).

Lemma initDb_eq w :
  initDb env w =
  let sql := create_database_sql env in
  match create_database sql (db w) with
  | inl _ =>
      (inr (),
       scheduled InitDbCallback 5000
         (logged "Error initializing database:"
            (queried (CreateDatabase sql) (db w) w)))
  | inr (_, st1) =>
      let w1 := queried (CreateDatabase sql) st1 w in
      match create_table (database env) st1 with
      | inl _ =>
          (inr (),
           scheduled InitDbCallback 5000
             (logged "Error initializing database:" (queried CreateTable st1 w1)))
      | inr (_, st2) =>
          (inr (),
           logged "Database and tables initialized successfully"
             (queried CreateTable st2 w1))
      end
  end.
Proof.
  unfold initDb, try_catch, tempPool_query, mbind, M_bind, pool_query.
  cbn [exec db queried]. cbv zeta.
  destruct (create_database _ _) as [e|[h1 st1]]; [done|]. cbn [db].
  by destruct (create_table _ _) as [e|[h2 st2]].
Qed.

Lemma initDb_offline w :
  online (db w) = false →
  initDb env w
  = (inr (),
     scheduled InitDbCallback 5000
       (logged "Error initializing database:"
          (queried (CreateDatabase (create_database_sql env)) (db w) w))).
Proof.
  intros Hoff. rewrite initDb_eq. cbv zeta. unfold create_database. by rewrite Hoff.
Qed.

Lemma steps_cons e es w :
  (steps env (e :: es) w).2 = (steps env es (step env e w).2).2.
Proof.
  cbn [steps]. destruct (step env e w) as [r w1]. cbn [snd].
  by destruct (steps env es w1).
Qed.

(** While the server is down, a firing of the retry timer leaves exactly
    the retry timer pending again. *)
Lemma fire_offline w :
  online (db w) = false → timers w = [retry] →
  let w' := (step env Fire w).2 in
  timers w' = [retry] ∧ listening w' = listening w ∧ db w' = db w
  ∧ length (sent w') = S (length (sent w)).
Proof.
  intros Hoff Ht. cbv zeta. cbn [step]. rewrite Ht. cbn [callback_of retry].
  unfold run. rewrite initDb_offline by done.
  cbn [snd scheduled logged queried timers listening db sent app].
  rewrite length_app. cbn [length].
  split; [done|]. split; [done|]. split; [done|]. lia.
Qed.

Lemma fires_offline n w :
  online (db w) = false → timers w = [retry] →
  let w' := (steps env (repeat Fire n) w).2 in
  timers w' = [retry] ∧ listening w' = listening w ∧ db w' = db w
  ∧ length (sent w') = (length (sent w) + n)%nat.
Proof.
  revert w. induction n as [|n IH]; intros w Hoff Ht; cbv zeta.
  - cbn. split; [done|]. split; [done|]. split; [done|]. lia.
  - cbn [repeat]. rewrite steps_cons.
    destruct (fire_offline w Hoff Ht) as (Ht1 & Hl1 & Hd1 & Hs1).
    destruct (IH (step env Fire w).2) as (Ht2 & Hl2 & Hd2 & Hs2);
      [by rewrite Hd1 | done |].
    rewrite Ht2, Hl2, Hd2, Hs2, Hl1, Hd1, Hs1.
    split; [done|]. split; [done|]. split; [done|]. lia.
Qed.

(** With no table to open, every route gives its fixed answer. *)
Lemma handle_unavailable r w e :
  open_tasks (database env) (db w) = inl e →
  (handle env r w).1 = inr (unavailable r).
Proof.
  intros Hopen. destruct r as [| |key|req|key req|key]; cbn [handle unavailable].
  - done.
  - rewrite get_tasks_eq. cbn [exec]. by rewrite Hopen.
  - rewrite get_task_eq. cbn [exec]. by rewrite Hopen.
  - rewrite post_task_eq. cbv zeta. destruct (truthy _); [|done].
    unfold insert_task. by rewrite Hopen.
  - rewrite put_task_eq. cbv zeta. unfold update_task. by rewrite Hopen.
  - rewrite delete_task_eq. unfold delete_by_id. by rewrite Hopen.
Qed.
End Startup.

Lemma append_empty_r (s : string) : s +:+ "" = s.
Proof.
  induction s as [|c s IH]; [done|].
  change (String c (s +:+ "") = String c s). by rewrite IH.
Qed.

(** C10: the text of the [CREATE DATABASE] statement is the fixed keywords
    followed by the value of [DB_NAME], pasted in as it is.  Whatever the
    value, the text contains it; for a non-empty value the text is the
    keywords followed by exactly that value, so two different values give
    two different statements; and this text is the first statement [initDb]
    sends. *)
Theorem create_database_text_interpolates `{D : Dialect} (env : environ)
    (v : string) (w : world) :
  DB_NAME env = Some v →
  (∃ pre post, create_database_sql env = pre +:+ v +:+ post)
  ∧ (v ≠ "" → create_database_sql env = "CREATE DATABASE IF NOT EXISTS " +:+ v)
  ∧ (∃ rest,
       sent (initDb env w).2
       = sent w ++ CreateDatabase (create_database_sql env) :: rest)
  ∧ sql_text (CreateDatabase (create_database_sql env)) = create_database_sql env
  ∧ (∀ env' v',
       DB_NAME env' = Some v' → v ≠ "" → v' ≠ "" →
       create_database_sql env' = create_database_sql env → v' = v).
Proof.
  intros Hname.
  assert (Hsql : ∀ e x, DB_NAME e = Some x → x ≠ "" →
            create_database_sql e = "CREATE DATABASE IF NOT EXISTS " +:+ x).
  { intros e x He Hx. unfold create_database_sql, env_or. rewrite He.
    by apply String.eqb_neq in Hx as ->. }
  split; [|split; [|split; [|split]]].
  - destruct (decide (v = "")) as [->|Hv].
    + by exists "", (create_database_sql env).
    + exists "CREATE DATABASE IF NOT EXISTS ", "".
      rewrite (Hsql env v) by done. by rewrite append_empty_r.
  - by apply Hsql.
  - rewrite initDb_eq. cbv zeta.
    destruct (create_database _ _) as [e|[h1 st1]].
    { by exists []. }
    destruct (create_table _ _) as [e|[h2 st2]].
    + exists [CreateTable]. cbn. by rewrite <- app_assoc.
    + exists [CreateTable]. cbn. by rewrite <- app_assoc.
  - done.
  - intros env' v' Hname' Hv Hv' Heq.
    rewrite (Hsql env v), (Hsql env' v') in Heq by done.
    cbn in Heq. by simplify_eq.
Qed.

Lemma create_database_text_interpolates_witness :
  let env := {| PORT := None; DB_NAME := Some "shop; DROP DATABASE tasksdb" |} in
  create_database_sql env
  = "CREATE DATABASE IF NOT EXISTS shop; DROP DATABASE tasksdb"
  ∧ ∃ rest,
      sent (initDb (D := plain) env (boot (blank true 0))).2
      = [] ++ CreateDatabase (create_database_sql env) :: rest.
Proof.
  cbv zeta.
  destruct (create_database_text_interpolates (D := plain)
              {| PORT := None; DB_NAME := Some "shop; DROP DATABASE tasksdb" |}
              "shop; DROP DATABASE tasksdb" (boot (blank true 0)) eq_refl)
    as (_ & Hsql & Hsent & _).
  split; [by apply Hsql | exact Hsent].
Defined.

(** C7: the listener is opened before [initDb] is called and whatever the
    state of the server; an [initDb] whose [CREATE DATABASE] or
    [CREATE TABLE] is rejected arms one timer of 5000 ms for itself and one
    that succeeds arms none; with the server down the attempts go on without
    end ([n] firings leave the [n+1]-st retry pending); a request that
    arrives while the table cannot be opened gets the fixed answer of its
    route and nothing of the failed initialisation; and once the server
    takes the two statements the next firing leaves the table in place. *)
Theorem schema_initialisation_retries `{D : Dialect} (env : environ) :
  (∀ st, listening (step env Start (boot st)).2 = Some (port env))
  ∧ (∀ w,
       let w' := (initDb env w).2 in
       listening w' = listening w
       ∧ match create_database (create_database_sql env) (db w)
               ≫= λ created, create_table (database env) created.2 with
         | inl _ => timers w' = timers w ++ [retry]
         | inr (_, st) =>
             timers w' = timers w ∧ db w' = st
             ∧ ∃ t, open_tasks (database env) (db w') = inr t
         end)
  ∧ (∀ st n,
       online st = false →
       let w := (steps env (Start :: repeat Fire n) (boot st)).2 in
       listening w = Some (port env)
       ∧ timers w = [retry]
       ∧ db w = st
       ∧ length (sent w) = S n)
  ∧ (∀ w r e p,
       listening w = Some p →
       open_tasks (database env) (db w) = inl e →
       (step env (Http r) w).1 = Some (unavailable r))
  ∧ (∀ w,
       timers w = [retry] →
       online (db w) = true →
       ddl_schema (create_database_sql env) = Some (database env) →
       let w' := (step env Fire w).2 in
       timers w' = [] ∧ ∃ t, open_tasks (database env) (db w') = inr t).
Proof.
  assert (Hattempt : ∀ w,
    let w' := (initDb env w).2 in
    listening w' = listening w
    ∧ match create_database (create_database_sql env) (db w)
            ≫= λ created, create_table (database env) created.2 with
      | inl _ => timers w' = timers w ++ [retry]
      | inr (_, st) =>
          timers w' = timers w ∧ db w' = st
          ∧ ∃ t, open_tasks (database env) (db w') = inr t
      end).
  { intros w. cbv zeta. rewrite initDb_eq. cbv zeta.
    destruct (create_database _ _) as [e|[h1 st1]]; cbn [mbind sum_bind]; [done|].
    cbn [snd]. unfold create_table.
    destruct (online st1) eqn:Hon; [|done].
    destruct (schemas st1 !! database env) as [[t|]|] eqn:Hschema; [| |done].
    - split; [done|]. split; [done|]. split; [done|].
      exists t. cbn [snd logged queried db]. unfold open_tasks. by rewrite Hon, Hschema.
    - split; [done|]. split; [done|]. split; [done|].
      eexists. cbn [snd logged queried db]. by apply open_put_tasks. }
  split; [|split; [exact Hattempt|split; [|split]]].
  - intros st. cbn [step]. unfold run, main, mbind, M_bind, listen, console_log.
    cbn [boot]. destruct (Hattempt (logged "Server running on port"
      {| db := st; sent := []; console := []; listening := Some (port env);
         timers := [] |})) as [Hl _].
    destruct (initDb env _) as [[e|[]] w']; exact Hl.
  - intros st n Hoff. cbv zeta. rewrite steps_cons.
    assert (Hstart : (step env Start (boot st)).2
              = scheduled InitDbCallback 5000
                  (logged "Error initializing database:"
                     (queried (CreateDatabase (create_database_sql env)) st
                        (logged "Server running on port"
                           {| db := st; sent := []; console := [];
                              listening := Some (port env); timers := [] |})))).
    { cbn [step]. unfold run, main, mbind, M_bind, listen, console_log. cbn [boot].
      by rewrite initDb_offline. }
    rewrite Hstart.
    destruct (fires_offline env n
                (scheduled InitDbCallback 5000
                   (logged "Error initializing database:"
                      (queried (CreateDatabase (create_database_sql env)) st
                         (logged "Server running on port"
                            {| db := st; sent := []; console := [];
                               listening := Some (port env); timers := [] |})))))
      as (Ht & Hl & Hd & Hs); [done..|].
    rewrite Ht, Hl, Hd, Hs. cbn. split; [done|]. split; [done|]. split; [done|]. lia.
  - intros w r e p Hlisten Hopen. cbn [step]. rewrite Hlisten. unfold run.
    pose proof (handle_unavailable env r w e Hopen) as Hresp.
    destruct (handle env r w) as [[?|resp] w']; cbn [fst] in *; by simplify_eq.
  - intros w Ht Hon Hddl. cbv zeta. cbn [step]. rewrite Ht. cbn [callback_of retry].
    unfold run.
    set (w0 := {| db := db w; sent := sent w; console := console w;
                  listening := listening w; timers := [] |}).
    destruct (Hattempt w0) as [_ Hcase].
    assert (Hok : ∃ h st, create_database (create_database_sql env) (db w0)
                          ≫= (λ created, create_table (database env) created.2)
                          = inr (h, st)).
    { unfold create_database, w0. cbn [db]. rewrite Hon, Hddl. cbn [mbind sum_bind snd].
      unfold create_table. cbn [online schemas].
      destruct (schemas (db w) !! database env) as [[t|]|] eqn:Hschema.
      - rewrite Hschema. by eexists _, _.
      - rewrite Hschema. by eexists _, _.
      - rewrite lookup_insert_eq. by eexists _, _. }
    destruct Hok as (h & st & Hok). rewrite Hok in Hcase.
    destruct Hcase as (Htimers & _ & Htable).
    destruct (initDb env w0) as [[?|[]] w']; cbn [snd] in *; by split.
Qed.

Lemma schema_initialisation_retries_witness :
  let w := (steps (D := plain) default_env (Start :: repeat Fire 3)
              (boot (blank false 0))).2 in
  let w' := (steps (D := plain) default_env [SetOnline true; Fire] w).2 in
  listening w = Some (JNum 5000)
  ∧ timers w = [{| callback_of := InitDbCallback; delay := 5000 |}]
  ∧ db w = blank false 0
  ∧ length (sent w) = 4%nat
  ∧ (step (D := plain) default_env (Http GetTasks) w).1
    = Some {| status := 500;
              body := Some (JObj {[ "error" := JStr "Failed to fetch tasks" ]}) |}
  ∧ timers w' = []
  ∧ stored default_env w' = []
  ∧ status <$> (step (D := plain) default_env (Http GetTasks) w').1 = Some 200.
Proof.
  cbv zeta.
  destruct (schema_initialisation_retries (D := plain) default_env)
    as (_ & _ & Hretry & Hhidden & _).
  destruct (Hretry (blank false 0) 3%nat eq_refl) as (Hlisten & Htimers & Hdb & Hsent).
  split; [exact Hlisten|]. split; [exact Htimers|]. split; [exact Hdb|].
  split; [exact Hsent|]. split; [|by vm_compute].
  apply (Hhidden _ GetTasks ECONNREFUSED (JNum 5000) Hlisten). by rewrite Hdb.
Defined.

Section KeyFacts.
Context `{D : Dialect} (env : environ).

Lemma moves_same st st' r :
  table_at env st' = table_at env st → created r = None → moves env st st' r.
Proof.
  intros Ht Hr. unfold moves, next_id, keys_below. rewrite Ht, Hr.
  split; [lia|]. by split.
Qed.

Lemma table_at_open st t :
  open_tasks (database env) st = inr t → table_at env st = Some (Some t).
Proof. intros H. by apply open_tasks_inv in H as [_ ?]. Qed.

Lemma table_at_put t st :
  table_at env (put_tasks (database env) t st) = Some (Some t).
Proof. unfold table_at, put_tasks. cbn [schemas]. apply lookup_insert_eq. Qed.

(** Rewriting or removing rows moves no key and leaves the counter. *)
Lemma moves_rewrite st t l r :
  table_at env st = Some (Some t) →
  (∀ x, x ∈ l → ∃ y, y ∈ rows t ∧ id x = id y) →
  created r = None →
  moves env st (put_tasks (database env)
              {| rows := l; auto_increment := auto_increment t |} st) r.
Proof.
  intros Ht Hl Hr. unfold moves, next_id, keys_below.
  rewrite table_at_put, Ht, Hr. cbn [auto_increment].
  split; [lia|]. split; [done|].
  intros Hbelow t' x [= <-] Hx. cbn [rows auto_increment] in *.
  destruct (Hl x Hx) as (y & Hy & ->). by eapply Hbelow.
Qed.

Lemma created_201 i vt vd :
  is_undefined vt = false → is_undefined vd = false →
  created (Some (res_json 201
             (JObj {[ "id" := JNum i; "title" := vt; "description" := vd ]})))
  = Some i.
Proof.
  intros Ht Hd. unfold created, res_json, field. cbn [status body Z.eqb Pos.eqb].
  rewrite to_json_created by done. by rewrite lookup_insert_eq.
Qed.

Lemma handle_moves r w :
  ∃ resp, (handle env r w).1 = inr resp
          ∧ moves env (db w) (db (handle env r w).2) (Some resp).
Proof.
  destruct r as [| |key|req|key req|key]; cbn [handle].
  - eexists. split; [done|]. by apply moves_same.
  - rewrite get_tasks_eq. cbn [exec].
    destruct (open_tasks _ _) as [e|t]; cbn [mbind sum_bind];
      (eexists; split; [done|]; by apply moves_same).
  - rewrite get_task_eq. cbn [exec].
    destruct (open_tasks _ _) as [e|t]; cbn [mbind sum_bind];
      [eexists; split; [done|]; by apply moves_same|].
    destruct (Z.of_nat _ =? 0);
      (eexists; split; [done|]; by apply moves_same).
  - rewrite post_task_eq. cbv zeta.
    destruct (truthy (prop req "title")) eqn:Htruthy;
      [|eexists; split; [done|]; by apply moves_same].
    destruct (insert_task _ _ _ _) as [e|[h st]] eqn:Hins;
      [eexists; split; [done|]; by apply moves_same|].
    apply insert_task_inv in Hins
      as (tbl & pt & pd & t & d & Hopen & _ & _ & _ & _ & _ & Hid & ->).
    eexists. split; [done|]. cbn [snd queried db].
    apply table_at_open in Hopen.
    unfold moves, next_id, keys_below.
    rewrite table_at_put, Hopen, Hid.
    rewrite created_201; [|by apply truthy_defined|by apply js_or_defined].
    cbn [auto_increment rows]. split; [lia|]. split.
    + intros i [= <-]. lia.
    + intros Hbelow t' x [= <-] Hx. cbn [rows auto_increment] in *.
      apply elem_of_app in Hx as [Hx|Hx].
      * specialize (Hbelow tbl x eq_refl Hx). lia.
      * apply list_elem_of_singleton in Hx as ->. cbn [id]. lia.
  - rewrite put_task_eq. cbv zeta.
    destruct (update_task _ _ _ _ _) as [e|[h st]] eqn:Hupd;
      [eexists; split; [done|]; by apply moves_same|].
    apply update_task_inv in Hupd as (tbl & pd & Hopen & _ & _ & Hcase).
    apply table_at_open in Hopen.
    destruct Hcase as [[H0 ->]|(pt & t & d & Hne & _ & _ & _ & ->)].
    + rewrite H0. eexists. split; [done|]. by apply moves_same.
    + apply Z.eqb_neq in Hne as ->. eexists. split; [done|].
      cbn [snd queried db]. apply moves_rewrite; [done| |done].
      intros x Hx. apply list_elem_of_fmap in Hx as (y & -> & Hy).
      exists y. split; [done|]. unfold set_row. by destruct (matches key y).
  - rewrite delete_task_eq. unfold delete_by_id.
    destruct (open_tasks _ _) as [e|tbl] eqn:Hopen; cbn [mbind sum_bind];
      [eexists; split; [done|]; by apply moves_same|].
    apply table_at_open in Hopen.
    destruct (count key (rows tbl) =? 0) eqn:E; cbn [affectedRows].
    + eexists. split; [done|]. by apply moves_same.
    + rewrite E. eexists. split; [done|].
      cbn [snd queried db]. apply moves_rewrite; [done| |done].
      intros x Hx. apply list_elem_of_filter in Hx as [_ Hx]. by exists x.
Qed.
End KeyFacts.

Section Runs.
Context `{D : Dialect} (env : environ).

Lemma moves_blank st st' r :
  (∀ t, table_at env st ≠ Some (Some t)) →
  match table_at env st' with
  | Some (Some t) => rows t = [] ∧ auto_increment t = 1
  | _ => True
  end →
  created r = None →
  moves env st st' r.
Proof.
  intros Hnone Hfresh Hr. unfold moves, next_id, keys_below. rewrite Hr.
  destruct (table_at env st) as [[t|]|]; [by destruct (Hnone t)| |];
    (destruct (table_at env st') as [[t'|]|];
     [destruct Hfresh as [Hrows ->]; split; [lia|]; split; [done|];
      intros _ t0 x [= <-] Hx; rewrite Hrows in Hx; by apply elem_of_nil in Hx
     |by repeat split..]).
Qed.

Lemma create_database_table sql st h st1 :
  create_database sql st = inr (h, st1) →
  table_at env st1 = table_at env st
  ∨ (table_at env st = None ∧ table_at env st1 = Some None).
Proof.
  unfold create_database, table_at.
  destruct (online st); [|done].
  destruct (ddl_schema sql) as [name|]; [|done].
  intros [= <- <-]. cbn [schemas].
  destruct (schemas st !! name) as [x|] eqn:Hname; [by left|].
  destruct (decide (name = database env)) as [->|Hne].
  - right. split; [done|]. apply lookup_insert_eq.
  - left. by apply lookup_insert_ne.
Qed.

Lemma create_table_table st1 h st2 :
  create_table (database env) st1 = inr (h, st2) →
  st2 = st1
  ∨ (table_at env st1 = Some None
     ∧ table_at env st2 = Some (Some {| rows := []; auto_increment := 1 |})).
Proof.
  unfold create_table.
  destruct (online st1); [|done].
  destruct (schemas st1 !! database env) as [[t|]|] eqn:Hschema; [| |done].
  - intros [= <- <-]. by left.
  - intros [= <- <-]. right. split; [done|]. apply table_at_put.
Qed.

Lemma initDb_moves w : moves env (db w) (db (initDb env w).2) None.
Proof.
  rewrite initDb_eq. cbv zeta.
  destruct (create_database _ _) as [e|[h1 st1]] eqn:Hdb;
    [by apply moves_same|].
  apply create_database_table in Hdb.
  destruct (create_table _ _) as [e|[h2 st2]] eqn:Htable;
    cbn [snd scheduled logged queried db].
  - destruct Hdb as [Hsame|[Hnone Hempty]]; [by apply moves_same|].
    apply moves_blank; [by rewrite Hnone|by rewrite Hempty|done].
  - apply create_table_table in Htable as [->|[Hempty Hfresh]].
    + destruct Hdb as [Hsame|[Hnone Hempty]]; [by apply moves_same|].
      apply moves_blank; [by rewrite Hnone|by rewrite Hempty|done].
    + apply moves_blank; [|by rewrite Hfresh|done].
      destruct Hdb as [Hsame|[Hnone _]]; [by rewrite <- Hsame, Hempty|by rewrite Hnone].
Qed.

Lemma run_snd {A : Type} (m : M A) w : (run m w).2 = (m w).2.
Proof. unfold run. by destruct (m w) as [[?|?] ?]. Qed.

Lemma step_moves e w :
  moves env (db w) (db (step env e w).2) (step env e w).1.
Proof.
  destruct e as [| |r|b|t]; cbn [step].
  - cbn [fst snd]. rewrite run_snd.
    unfold main, mbind, M_bind, listen, console_log.
    match goal with |- context [initDb env ?w0] =>
      pose proof (initDb_moves w0) as Hm; destruct (initDb env w0) as [[?|[]] w']
    end; exact Hm.
  - destruct (timers w) as [|[[] ms] ts]; [by apply moves_same|].
    cbn [callback_of fst snd]. rewrite run_snd.
    match goal with |- context [initDb env ?w0] => exact (initDb_moves w0) end.
  - destruct (listening w); [|by apply moves_same].
    destruct (handle_moves env r w) as (resp & Hresp & Hm).
    unfold run. destruct (handle env r w) as [[?|?] w']; cbn [fst snd] in *;
      by simplify_eq.
  - by apply moves_same.
  - by apply moves_same.
Qed.

Lemma created_ids_cons r rs :
  created_ids (r :: rs)
  = match created r with
    | Some i => i :: created_ids rs
    | None => created_ids rs
    end.
Proof. reflexivity. Qed.

Lemma steps_moves es w :
  next_id env (db w) <= next_id env (db (steps env es w).2)
  ∧ Forall (λ i, next_id env (db w) <= i) (created_ids (steps env es w).1)
  ∧ StronglySorted Z.lt (created_ids (steps env es w).1)
  ∧ (keys_below env (db w) → keys_below env (db (steps env es w).2)).
Proof.
  revert w. induction es as [|e es IH]; intros w.
  - cbn. split; [lia|]. split; [constructor|]. split; [constructor|done].
  - cbn [steps]. pose proof (step_moves e w) as (Hnext & Hid & Hkeys).
    destruct (step env e w) as [r w1]. cbn [fst snd] in *.
    specialize (IH w1) as (Hnext' & Hall & Hsorted & Hkeys').
    destruct (steps env es w1) as [rs w2]. cbn [fst snd] in *.
    rewrite created_ids_cons.
    split; [lia|]. destruct (created r) as [i|].
    + specialize (Hid i eq_refl). split; [|split; [|by auto]].
      * constructor; [lia|]. eapply Forall_impl; [exact Hall|]. intros; cbn in *; lia.
      * constructor; [done|]. eapply Forall_impl; [exact Hall|]. intros; cbn in *; lia.
    + split; [|split; [done|by auto]].
      eapply Forall_impl; [exact Hall|]. intros; cbn in *; lia.
Qed.
End Runs.

Lemma increasing_NoDup (l : list Z) : StronglySorted Z.lt l → NoDup l.
Proof.
  induction 1 as [|i l _ IH Hlt]; [constructor|].
  constructor; [|exact IH].
  intros Hin. rewrite Forall_forall in Hlt. specialize (Hlt i Hin). lia.
Qed.

(** C5: along any sequence of events (requests, timer firings, the server
    going up or down), the keys returned by the 201 responses are strictly
    increasing, hence pairwise distinct; and every one of them is greater
    than the key of any row that was in the table before the sequence,
    whether that row is still there or has been deleted in between: the
    counter never hands a key out twice. *)
Theorem created_ids_increase `{D : Dialect} (env : environ)
    (es : list (event)) (w : world) :
  keys_below env (db w) →
  StronglySorted Z.lt (created_ids (steps env es w).1)
  ∧ NoDup (created_ids (steps env es w).1)
  ∧ (∀ t row i,
       table_at env (db w) = Some (Some t) → row ∈ rows t →
       i ∈ created_ids (steps env es w).1 → id row < i)
  ∧ keys_below env (db (steps env es w).2).
Proof.
  intros Hkeys.
  destruct (steps_moves env es w) as (_ & Hall & Hsorted & Hkeys').
  split; [done|]. split; [|split; [|by auto]].
  - by apply increasing_NoDup.
  - intros t row i Ht Hrow Hi.
    rewrite Forall_forall in Hall. specialize (Hall i Hi).
    specialize (Hkeys t row Ht Hrow).
    unfold next_id in Hall. rewrite Ht in Hall. lia.
Qed.

Lemma created_ids_increase_witness :
  let es := [Http (PostTask {[ "title" := JStr "A" ]});
             Http (PostTask {[ "title" := JStr "B" ]});
             Http (DeleteTask "2");
             Http (PostTask {[ "title" := JStr "C" ]})] in
  let out := steps (D := plain) default_env es started in
  keys_below default_env (db started)
  ∧ created_ids out.1 = [1; 2; 3]
  ∧ id <$> stored default_env out.2 = [1; 3]
  ∧ StronglySorted Z.lt (created_ids out.1)
  ∧ NoDup (created_ids out.1).
Proof.
  cbv zeta.
  assert (Hkeys : keys_below default_env (db started)).
  { intros t r Ht Hr. vm_compute in Ht. injection Ht as <-.
    by apply elem_of_nil in Hr. }
  split; [exact Hkeys|]. split; [reflexivity|]. split; [reflexivity|].
  destruct (created_ids_increase (D := plain) default_env
              [Http (PostTask {[ "title" := JStr "A" ]});
               Http (PostTask {[ "title" := JStr "B" ]});
               Http (DeleteTask "2");
               Http (PostTask {[ "title" := JStr "C" ]})] started Hkeys)
    as (Hsorted & Hnodup & _).
  split; [exact Hsorted | exact Hnodup].
Defined.

(** ** Scenarios

    The two end-to-end runs the specification lists, on the started
    process. *)

Example crud_scenario :
  let es := [Http (PostTask {[ "title" := JStr "A"; "description" := JStr "B" ]});
             Http (GetTask "1");
             Http (PutTask "1" {[ "title" := JStr "A2"; "description" := JStr "B2" ]});
             Http (DeleteTask "1");
             Http (GetTask "1")] in
  let out := steps (D := plain) default_env es started in
  (λ r : option response, status <$> r) <$> out.1
  = [Some 201; Some 200; Some 200; Some 204; Some 404]
  ∧ (out.1 !! 2%nat)
    = Some (Some {| status := 200;
                    body := Some (JObj {[ "id" := JStr "1"; "title" := JStr "A2";
                                          "description" := JStr "B2" ]}) |})
  ∧ (out.1 !! 4%nat) = Some (Some not_found)
  ∧ stored default_env out.2 = [].
Proof. by vm_compute. Qed.

Example empty_body_scenario :
  let es := [Http (PostTask ∅); Http GetTasks] in
  let out := steps (D := plain) default_env es started in
  out.1 = [Some {| status := 400;
                   body := Some (JObj {[ "error" := JStr "Title is required" ]}) |};
           Some {| status := 200; body := Some (JArr []) |}]
  ∧ stored default_env out.2 = [].
Proof. by vm_compute. Qed.

(** * Further properties of the server *)

(** ** Every route, at once *)

Section Routes.
Context `{D : Dialect} (env : environ).

(** What a delete that was not rejected has done. *)
Lemma delete_by_id_inv key st h st' :
  delete_by_id (database env) key st = inr (h, st') →
  ∃ tbl,
    open_tasks (database env) st = inr tbl
    ∧ affectedRows h = count key (rows tbl)
    ∧ (affectedRows h = 0 ∧ st' = st
       ∨ affectedRows h ≠ 0
         ∧ st' = put_tasks (database env)
                   {| rows := filter (λ r, matches key r = false) (rows tbl);
                      auto_increment := auto_increment tbl |} st).
Proof.
  unfold delete_by_id.
  destruct (open_tasks _ st) as [?|tbl] eqn:Hopen; [done|]. cbn [mbind sum_bind].
  destruct (count key (rows tbl) =? 0) eqn:E; intros [= <- <-]; exists tbl.
  - apply Z.eqb_eq in E. split; [done|]. split; [done|]. by left.
  - apply Z.eqb_neq in E. split; [done|]. split; [done|]. by right.
Qed.

Lemma step_http r w p :
  listening w = Some p → step env (Http r) w = run (handle env r) w.
Proof. intros H. cbn [step]. by rewrite H. Qed.
End Routes.

Ltac in_list := repeat first [apply list_elem_of_here | apply list_elem_of_further].

(** X1: no rejection escapes a handler.  Whatever the request and the state
    of the process and of the store, the handler answers, with one of the
    six statuses the routes use; it sends no statement or exactly one; it
    leaves the listening socket and the timers alone; and a listening
    process hands that answer to the client. *)
Theorem every_request_is_answered `{D : Dialect} (env : environ)
    (r : request) (w : world) :
  ∃ resp,
    (handle env r w).1 = inr resp
    ∧ status resp ∈ [200; 201; 204; 400; 404; 500]
    ∧ (sent (handle env r w).2 = sent w
       ∨ ∃ s, sent (handle env r w).2 = sent w ++ [s])
    ∧ listening (handle env r w).2 = listening w
    ∧ timers (handle env r w).2 = timers w
    ∧ (∀ p, listening w = Some p → (step env (Http r) w).1 = Some resp).
Proof.
  assert (Hstep : ∀ resp, (handle env r w).1 = inr resp →
            ∀ p, listening w = Some p → (step env (Http r) w).1 = Some resp).
  { intros resp Hresp p Hp. rewrite (step_http env r w p Hp). unfold run.
    destruct (handle env r w) as [[?|?] ?]; cbn [fst] in *; by simplify_eq. }
  destruct r as [| |key|req|key req|key]; cbn [handle] in *.
  - eexists. split; [done|]. split; [in_list|]. split; [by left|].
    split; [done|]. split; [done|]. by apply Hstep.
  - revert Hstep. rewrite get_tasks_eq.
    destruct (exec _ _ _) as [e|[found st]]; intros Hstep;
      (eexists; split; [done|]; split; [in_list|]; split; [right; by eexists|];
       split; [done|]; split; [done|]; by apply Hstep).
  - revert Hstep. rewrite get_task_eq.
    destruct (exec _ _ _) as [e|[found st]]; [|destruct (Z.of_nat _ =? 0)];
      intros Hstep;
      (eexists; split; [done|]; split; [in_list|]; split; [right; by eexists|];
       split; [done|]; split; [done|]; by apply Hstep).
  - revert Hstep. rewrite post_task_eq. cbv zeta.
    destruct (truthy _).
    + destruct (insert_task _ _ _ _) as [e|[h st]]; intros Hstep;
        (eexists; split; [done|]; split; [in_list|]; split; [right; by eexists|];
         split; [done|]; split; [done|]; by apply Hstep).
    + intros Hstep. eexists. split; [done|]. split; [in_list|]. split; [by left|].
      split; [done|]. split; [done|]. by apply Hstep.
  - revert Hstep. rewrite put_task_eq. cbv zeta.
    destruct (update_task _ _ _ _ _) as [e|[h st]]; [|destruct (affectedRows h =? 0)];
      intros Hstep;
      (eexists; split; [done|]; split; [in_list|]; split; [right; by eexists|];
       split; [done|]; split; [done|]; by apply Hstep).
  - revert Hstep. rewrite delete_task_eq.
    destruct (delete_by_id _ _ _) as [e|[h st]]; [|destruct (affectedRows h =? 0)];
      intros Hstep;
      (eexists; split; [done|]; split; [in_list|]; split; [right; by eexists|];
       split; [done|]; split; [done|]; by apply Hstep).
Qed.

(** X2: an answer of 400, 404 or 500, and any answer of a GET route, means
    that the store is exactly as it was before the request. *)
Theorem failed_request_changes_nothing `{D : Dialect} (env : environ)
    (r : request) (w w' : world) (resp : response) :
  handle env r w = (inr resp, w') →
  status resp = 400 ∨ status resp = 404 ∨ status resp = 500 ∨ is_get r = true →
  db w' = db w.
Proof.
  intros Hrun Hcase.
  destruct r as [| |key|req|key req|key]; cbn [handle] in Hrun.
  - by injection Hrun as <- <-.
  - rewrite get_tasks_eq in Hrun. cbn [exec] in Hrun.
    destruct (open_tasks _ _) as [e|t]; cbn [mbind sum_bind] in Hrun;
      by injection Hrun as <- <-.
  - rewrite get_task_eq in Hrun. cbn [exec] in Hrun.
    destruct (open_tasks _ _) as [e|t]; cbn [mbind sum_bind] in Hrun;
      [by injection Hrun as <- <-|].
    destruct (Z.of_nat _ =? 0); by injection Hrun as <- <-.
  - rewrite post_task_eq in Hrun. cbv zeta in Hrun.
    destruct (truthy _); [|by injection Hrun as <- <-].
    destruct (insert_task _ _ _ _) as [e|[h st]]; injection Hrun as <- <-; [done|].
    by destruct Hcase as [?|[?|[?|?]]].
  - rewrite put_task_eq in Hrun. cbv zeta in Hrun.
    destruct (update_task _ _ _ _ _) as [e|[h st]] eqn:Hupd;
      [by injection Hrun as <- <-|].
    apply update_task_inv in Hupd as (tbl & pd & _ & _ & _ & Hupd).
    destruct Hupd as [[H0 ->]|(pt & t & d & Hne & _)].
    + destruct (affectedRows h =? 0); by injection Hrun as <- <-.
    + apply Z.eqb_neq in Hne. rewrite Hne in Hrun. injection Hrun as <- <-.
      by destruct Hcase as [?|[?|[?|?]]].
  - rewrite delete_task_eq in Hrun.
    destruct (delete_by_id _ _ _) as [e|[h st]] eqn:Hdel;
      [by injection Hrun as <- <-|].
    apply delete_by_id_inv in Hdel as (tbl & _ & _ & Hdel).
    destruct Hdel as [[H0 ->]|[Hne ->]].
    + destruct (affectedRows h =? 0); by injection Hrun as <- <-.
    + apply Z.eqb_neq in Hne. rewrite Hne in Hrun. injection Hrun as <- <-.
      by destruct Hcase as [?|[?|[?|?]]].
Qed.

(** X3: a 500 answer is the fixed answer of its route: whatever the store
    rejected the statement for, the body is the route's generic message and
    nothing else, one line goes to the console, and the store is unchanged. *)
Theorem store_error_is_generic `{D : Dialect} (env : environ)
    (r : request) (w w' : world) (resp : response) :
  handle env r w = (inr resp, w') →
  status resp = 500 →
  resp = unavailable r
  ∧ (∃ line, console w' = console w ++ [line])
  ∧ db w' = db w.
Proof.
  intros Hrun H500.
  destruct r as [| |key|req|key req|key]; cbn [handle] in Hrun.
  - by injection Hrun as <- <-.
  - rewrite get_tasks_eq in Hrun.
    destruct (exec _ _ _) as [e|[found st]]; injection Hrun as <- <-; [|done].
    split; [done|]. split; [by eexists|done].
  - rewrite get_task_eq in Hrun.
    destruct (exec _ _ _) as [e|[found st]].
    + injection Hrun as <- <-. split; [done|]. split; [by eexists|done].
    + destruct (Z.of_nat _ =? 0); by injection Hrun as <- <-.
  - rewrite post_task_eq in Hrun. cbv zeta in Hrun. cbn [unavailable].
    destruct (truthy _); [|by injection Hrun as <- <-].
    destruct (insert_task _ _ _ _) as [e|[h st]]; injection Hrun as <- <-; [|done].
    split; [done|]. split; [by eexists|done].
  - rewrite put_task_eq in Hrun. cbv zeta in Hrun.
    destruct (update_task _ _ _ _ _) as [e|[h st]].
    + injection Hrun as <- <-. split; [done|]. split; [by eexists|done].
    + destruct (affectedRows h =? 0); by injection Hrun as <- <-.
  - rewrite delete_task_eq in Hrun.
    destruct (delete_by_id _ _ _) as [e|[h st]].
    + injection Hrun as <- <-. split; [done|]. split; [by eexists|done].
    + destruct (affectedRows h =? 0); by injection Hrun as <- <-.
Qed.

Lemma failed_request_changes_nothing_witness :
  let w := (run (post_task (D := plain) default_env {[ "title" := JStr "A" ]}) started).2 in
  let out := handle (D := plain) default_env (PutTask "7" {[ "title" := JStr "X" ]}) w in
  out.1 = inr not_found ∧ db out.2 = db w.
Proof.
  cbv zeta. split; [reflexivity|].
  eapply (failed_request_changes_nothing (D := plain) default_env
            (PutTask "7" {[ "title" := JStr "X" ]}) _ _ not_found).
  - reflexivity.
  - right. left. reflexivity.
Defined.

Lemma store_error_is_generic_witness :
  let w := (step (D := plain) default_env Start (boot (blank false 0))).2 in
  let out := handle (D := plain) default_env (DeleteTask "1") w in
  out.1 = inr {| status := 500;
                 body := Some (JObj {[ "error" := JStr "Failed to delete task" ]}) |}
  ∧ db out.2 = db w.
Proof.
  cbv zeta.
  destruct (store_error_is_generic (D := plain) default_env (DeleteTask "1")
              (step (D := plain) default_env Start (boot (blank false 0))).2
              (handle (D := plain) default_env (DeleteTask "1")
                 (step (D := plain) default_env Start (boot (blank false 0))).2).2
              {| status := 500;
                 body := Some (JObj {[ "error" := JStr "Failed to delete task" ]}) |})
    as (_ & _ & Hdb); [reflexivity..|].
  split; [reflexivity | exact Hdb].
Defined.

(** ** Reading *)

Lemma to_json_row_object r : to_json (row_object r) = row_object r.
Proof.
  unfold row_object. cbn [to_json]. f_equal.
  rewrite (omap_insert_Some _ _ _ _ (JNum (id r))) by done.
  rewrite (omap_insert_Some _ _ _ _ (JStr (title r))) by done.
  rewrite (omap_insert_Some _ _ _ _
             (match description r with Some d => JStr d | None => JNull end))
    by (by destruct (description r)).
  by rewrite (omap_singleton_Some _ _ _ (JDate (created_at r))).
Qed.

Lemma to_json_row_objects (l : list task_row) :
  to_json (JArr (row_object <$> l)) = JArr (row_object <$> l).
Proof.
  cbn [to_json]. f_equal. induction l as [|r l IH]; [done|].
  cbn [fmap list_fmap map]. rewrite to_json_row_object. f_equal. exact IH.
Qed.

(** X4: with the table in place, the list route answers 200 with every row
    of the table, in the order of the table, each as an object with [id],
    [title], [description] ([null] for a [NULL] column) and [created_at];
    an empty table gives the empty array.  One [SELECT] is sent and the
    store is left as it was. *)
Theorem list_returns_all_rows `{D : Dialect} (env : environ)
    (w : world) (tbl : table) :
  open_tasks (database env) (db w) = inr tbl →
  get_tasks env w
  = (inr {| status := 200; body := Some (JArr (row_object <$> rows tbl)) |},
     queried SelectAll (db w) w)
  ∧ (rows tbl = [] → (get_tasks env w).1
                     = inr {| status := 200; body := Some (JArr []) |}).
Proof.
  intros Hopen.
  assert (Hget : get_tasks env w
    = (inr {| status := 200; body := Some (JArr (row_object <$> rows tbl)) |},
       queried SelectAll (db w) w)).
  { rewrite get_tasks_eq. cbn [exec]. rewrite Hopen. cbn [mbind sum_bind].
    unfold res_json. by rewrite to_json_row_objects. }
  split; [exact Hget|]. intros Hempty. by rewrite Hget, Hempty.
Qed.

Lemma list_returns_all_rows_witness :
  let w := (run (post_task (D := plain) default_env {[ "title" := JStr "A" ]}) started).2 in
  (get_tasks (D := plain) default_env w).1
  = inr {| status := 200;
           body := Some (JArr [JObj {[ "id" := JNum 1; "title" := JStr "A";
                                        "description" := JStr "";
                                        "created_at" := JDate 0 ]}]) |}.
Proof.
  cbv zeta.
  assert (Hopen : open_tasks (database default_env)
            (db (run (post_task (D := plain) default_env {[ "title" := JStr "A" ]}) started).2)
          = inr {| rows := [{| id := 1; title := "A"; description := Some "";
                               created_at := 0 |}];
                   auto_increment := 2 |}) by reflexivity.
  destruct (list_returns_all_rows (D := plain) default_env _ _ Hopen) as [Hget _].
  by rewrite Hget.
Defined.

(** ** Round trips *)

Section RoundTrips.
Context `{D : Dialect} (env : environ).

(** An insert the store has no reason to reject. *)
Lemma insert_task_accepts vt vd pt pd t d st tbl :
  open_tasks (database env) st = inr tbl →
  bind vt = inr pt → bind vd = inr pd →
  check_title pt = inr t → check_description pd = inr d →
  auto_increment tbl <= INT_MAX →
  insert_task (database env) vt vd st
  = inr ({| insertId := auto_increment tbl; affectedRows := 1 |},
         put_tasks (database env)
           {| rows := rows tbl
                ++ [{| id := auto_increment tbl; title := t; description := d;
                       created_at := now st |}];
              auto_increment := auto_increment tbl + 1 |} st).
Proof.
  intros Hopen Ht Hd Hct Hcd Hkey. unfold insert_task.
  rewrite Hopen, Ht, Hd. cbn [mbind sum_bind]. rewrite Hct, Hcd. cbn [mbind sum_bind].
  by apply Z.leb_le in Hkey as ->.
Qed.

Lemma check_title_text s :
  fits VARCHAR_MAX s = true → check_title (SqlText s) = inr s.
Proof. intros H. cbn. by rewrite H. Qed.

Lemma filter_none key (l : list task_row) :
  (∀ r, r ∈ l → matches key r = false) →
  filter (λ r, matches key r = true) l = [].
Proof.
  intros H. apply count_zero in H. unfold count in H.
  apply nil_length_inv. lia.
Qed.


End RoundTrips.





(** X7: delete.  A delete of a key that some row has is answered 204 with
    no body; the table then holds exactly the rows with another key, in their
    old order, and the counter is where it was; the get route on the key
    answers 404. *)
Theorem delete_removes_the_task `{D : Dialect} (env : environ)
    (key : string) (w : world) (tbl : table) (r0 : task_row) :
  open_tasks (database env) (db w) = inr tbl →
  r0 ∈ rows tbl → matches key r0 = true →
  let w1 := (delete_task env key w).2 in
  (delete_task env key w).1 = inr {| status := 204; body := None |}
  ∧ open_tasks (database env) (db w1)
    = inr {| rows := filter (λ r, matches key r = false) (rows tbl);
             auto_increment := auto_increment tbl |}
  ∧ (∀ r, r ∈ stored env w1 ↔ r ∈ rows tbl ∧ matches key r = false)
  ∧ (get_task env key w1).1 = inr not_found.
Proof.
  intros Hopen Hr0 Hm.
  assert (Hdel : delete_task env key w
    = (inr (res_end 204),
       queried (DeleteById key)
         (put_tasks (database env)
            {| rows := filter (λ r, matches key r = false) (rows tbl);
               auto_increment := auto_increment tbl |} (db w)) w)).
  { rewrite delete_task_eq. unfold delete_by_id. rewrite Hopen. cbn [mbind sum_bind].
    rewrite (count_pos _ _ _ Hr0 Hm). cbn [affectedRows].
    by rewrite (count_pos _ _ _ Hr0 Hm). }
  assert (Hopen1 : open_tasks (database env)
            (put_tasks (database env)
               {| rows := filter (λ r, matches key r = false) (rows tbl);
                  auto_increment := auto_increment tbl |} (db w))
          = inr {| rows := filter (λ r, matches key r = false) (rows tbl);
                   auto_increment := auto_increment tbl |}).
  { apply open_put_tasks. by apply open_tasks_inv in Hopen as [? _]. }
  cbv zeta. rewrite Hdel. cbn [fst snd queried db].
  split; [done|]. split; [exact Hopen1|]. split.
  - intros r. unfold stored. cbn [queried db]. rewrite Hopen1. cbn [rows].
    rewrite list_elem_of_filter. split; intros [? ?]; by split.
  - rewrite get_task_eq. cbn [exec queried db]. rewrite Hopen1.
    cbn [mbind sum_bind rows fst].
    rewrite filter_none; [done|].
    intros r Hr. by apply list_elem_of_filter in Hr as [? _].
Qed.

Lemma delete_removes_the_task_witness :
  let w := (steps (D := plain) default_env
              [Http (PostTask {[ "title" := JStr "A" ]});
               Http (PostTask {[ "title" := JStr "B" ]})] started).2 in
  let w1 := (delete_task (D := plain) default_env "1" w).2 in
  (delete_task (D := plain) default_env "1" w).1 = inr {| status := 204; body := None |}
  ∧ stored default_env w1
    = [{| id := 2; title := "B"; description := Some ""; created_at := 0 |}]
  ∧ (get_task (D := plain) default_env "1" w1).1 = inr not_found.
Proof.
  cbv zeta.
  assert (Hopen : open_tasks (database default_env)
            (db (steps (D := plain) default_env
                   [Http (PostTask {[ "title" := JStr "A" ]});
                    Http (PostTask {[ "title" := JStr "B" ]})] started).2)
          = inr {| rows := [{| id := 1; title := "A"; description := Some "";
                               created_at := 0 |};
                            {| id := 2; title := "B"; description := Some "";
                               created_at := 0 |}];
                   auto_increment := 3 |}) by reflexivity.
  destruct (delete_removes_the_task (D := plain) default_env "1" _ _
              {| id := 1; title := "A"; description := Some ""; created_at := 0 |}
              Hopen (list_elem_of_here _ _)) as (Hdel & _ & _ & Hget);
    [by vm_compute|].
  split; [exact Hdel|]. split; [reflexivity | exact Hget].
Defined.

(** ** What the events do to the table *)

Section TableFacts.
Context `{D : Dialect} (env : environ).

Lemma table_at_same_schemas st st' :
  schemas st' = schemas st → table_at env st' = table_at env st.
Proof. unfold table_at. by intros ->. Qed.

Lemma handle_table_change r w :
  table_change (table_at env (db w)) (table_at env (db (handle env r w).2)).
Proof.
  destruct r as [| |key|req|key req|key]; cbn [handle].
  - constructor.
  - rewrite get_tasks_eq. cbn [exec].
    destruct (open_tasks _ _) as [e|t]; cbn [mbind sum_bind]; constructor.
  - rewrite get_task_eq. cbn [exec].
    destruct (open_tasks _ _) as [e|t]; cbn [mbind sum_bind]; [constructor|].
    destruct (Z.of_nat _ =? 0); constructor.
  - rewrite post_task_eq. cbv zeta.
    destruct (truthy _); [|constructor].
    destruct (insert_task _ _ _ _) as [e|[h st]] eqn:Hins; [constructor|].
    apply insert_task_inv in Hins
      as (tbl & pt & pd & t & d & Hopen & _ & _ & _ & _ & _ & _ & ->).
    cbn [snd queried db]. rewrite table_at_put, (table_at_open env _ _ Hopen).
    by apply change_insert.
  - rewrite put_task_eq. cbv zeta.
    destruct (update_task _ _ _ _ _) as [e|[h st]] eqn:Hupd; [constructor|].
    apply update_task_inv in Hupd as (tbl & pd & Hopen & _ & _ & Hcase).
    destruct Hcase as [[H0 ->]|(pt & t & d & _ & _ & _ & _ & ->)].
    + destruct (affectedRows h =? 0); constructor.
    + assert (Hrows : table_change (table_at env (db w))
                (table_at env (put_tasks (database env)
                   {| rows := set_row t d key <$> rows tbl;
                      auto_increment := auto_increment tbl |} (db w)))).
      { rewrite table_at_put, (table_at_open env _ _ Hopen).
        apply change_update. intros r. unfold set_row. by destruct (matches key r). }
      by destruct (affectedRows h =? 0).
  - rewrite delete_task_eq.
    destruct (delete_by_id _ _ _) as [e|[h st]] eqn:Hdel; [constructor|].
    apply delete_by_id_inv in Hdel as (tbl & Hopen & _ & Hcase).
    destruct Hcase as [[H0 ->]|[_ ->]].
    + destruct (affectedRows h =? 0); constructor.
    + assert (Hrows : table_change (table_at env (db w))
                (table_at env (put_tasks (database env)
                   {| rows := filter (λ r, matches key r = false) (rows tbl);
                      auto_increment := auto_increment tbl |} (db w)))).
      { rewrite table_at_put, (table_at_open env _ _ Hopen).
        apply (change_delete tbl (matches key)). }
      by destruct (affectedRows h =? 0).
Qed.

Lemma initDb_table_change w :
  table_change (table_at env (db w)) (table_at env (db (initDb env w).2)).
Proof.
  rewrite initDb_eq. cbv zeta.
  destruct (create_database _ _) as [e|[h1 st1]] eqn:Hdb; [constructor|].
  apply (create_database_table env) in Hdb.
  destruct (create_table _ _) as [e|[h2 st2]] eqn:Htable;
    cbn [snd scheduled logged queried db].
  - destruct Hdb as [->|[-> ->]]; constructor.
  - apply (create_table_table env) in Htable as [->|[Hempty ->]].
    + destruct Hdb as [->|[-> ->]]; constructor.
    + apply change_created. intros t.
      destruct Hdb as [<-|[-> _]]; [by rewrite Hempty|done].
Qed.

Lemma event_table_change e w :
  table_change (table_at env (db w)) (table_at env (db (step env e w).2)).
Proof.
  destruct e as [| |r|b|t]; cbn [step].
  - cbn [snd]. rewrite run_snd.
    unfold main, mbind, M_bind, listen, console_log.
    match goal with |- context [initDb env ?w0] =>
      pose proof (initDb_table_change w0) as Hm;
      destruct (initDb env w0) as [[?|[]] w']
    end; exact Hm.
  - destruct (timers w) as [|[[] ms] ts]; [constructor|].
    cbn [callback_of snd]. rewrite run_snd.
    match goal with |- context [initDb env ?w0] => exact (initDb_table_change w0) end.
  - destruct (listening w); [|constructor].
    rewrite run_snd. apply handle_table_change.
  - constructor.
  - constructor.
Qed.

(** A change of the table keeps the keys under the counter and in
    increasing order. *)
Lemma table_change_keeps_order o o' :
  table_change o o' →
  (∀ t, o = Some (Some t) →
     Forall (λ r, id r < auto_increment t) (rows t)
     ∧ StronglySorted Z.lt (id <$> rows t)) →
  ∀ t, o' = Some (Some t) →
    Forall (λ r, id r < auto_increment t) (rows t)
    ∧ StronglySorted Z.lt (id <$> rows t).
Proof.
  intros Hchange Hkeyed. destruct Hchange as [o| |o Hnone|t r Hid|t f Hf|t gone].
  - done.
  - done.
  - intros t [= <-]. split; constructor.
  - intros t' [= <-]. cbn [rows auto_increment].
    destruct (Hkeyed t eq_refl) as [Hbelow Hsorted]. split.
    + apply Forall_app. split.
      * eapply Forall_impl; [exact Hbelow|]. intros; cbn in *; lia.
      * repeat constructor. lia.
    + rewrite fmap_app. apply StronglySorted_app. split; [|split; [done|]].
      * intros x1 x2 Hx1 Hx2. apply list_elem_of_singleton in Hx2 as ->.
        apply list_elem_of_fmap in Hx1 as (r1 & -> & Hr1).
        rewrite Forall_forall in Hbelow. specialize (Hbelow r1 Hr1). lia.
      * repeat constructor.
  - intros t' [= <-]. cbn [rows auto_increment].
    destruct (Hkeyed t eq_refl) as [Hbelow Hsorted]. split.
    + apply Forall_fmap. eapply Forall_impl; [exact Hbelow|].
      intros r Hr. cbn. by destruct (Hf r) as [-> _].
    + rewrite <- list_fmap_compose.
      replace (id ∘ f <$> rows t) with (id <$> rows t); [done|].
      apply list_fmap_ext. intros i r _. cbn. by destruct (Hf r) as [-> _].
  - intros t' [= <-]. cbn [rows auto_increment].
    destruct (Hkeyed t eq_refl) as [Hbelow Hsorted]. split.
    + rewrite Forall_forall in Hbelow. apply Forall_forall. intros r Hr.
      apply Hbelow. by apply list_elem_of_filter in Hr as [_ Hr].
    + clear Hbelow. induction (rows t) as [|r l IH]; [constructor|].
      rewrite fmap_cons in Hsorted. apply StronglySorted_cons in Hsorted as [Hall Hl].
      rewrite filter_cons. destruct (decide (gone r = false)); [|by apply IH].
      rewrite fmap_cons. apply StronglySorted_cons. split; [|by apply IH].
      rewrite Forall_forall in Hall. apply Forall_forall. intros x Hx.
      apply Hall. apply list_elem_of_fmap in Hx as (y & -> & Hy).
      apply list_elem_of_filter in Hy as [_ Hy]. by apply list_elem_of_fmap_2.
Qed.

(** Where a row of the changed table comes from, when its key is below the
    old counter. *)
Lemma table_change_origin o o' t' r' :
  table_change o o' →
  o' = Some (Some t') → r' ∈ rows t' →
  id r' < match o with Some (Some t) => auto_increment t | _ => 1 end →
  ∃ t r, o = Some (Some t) ∧ r ∈ rows t
         ∧ id r = id r' ∧ created_at r = created_at r'.
Proof.
  intros Hchange Ho' Hr' Hlt.
  destruct Hchange as [o| |o Hnone|t r Hid|t f Hf|t gone].
  - subst o. by exists t', r'.
  - done.
  - injection Ho' as <-. by apply elem_of_nil in Hr'.
  - injection Ho' as <-. cbn [rows] in Hr'.
    apply elem_of_app in Hr' as [Hr'|Hr'].
    + by exists t, r'.
    + apply list_elem_of_singleton in Hr' as ->. lia.
  - injection Ho' as <-. cbn [rows] in Hr'.
    apply list_elem_of_fmap in Hr' as (r & -> & Hr).
    exists t, r. destruct (Hf r) as [? ?]. by repeat split.
  - injection Ho' as <-. cbn [rows] in Hr'.
    apply list_elem_of_filter in Hr' as [_ Hr']. by exists t, r'.
Qed.

Lemma keys_below_Forall st :
  keys_below env st
  ↔ ∀ t, table_at env st = Some (Some t) →
         Forall (λ r, id r < auto_increment t) (rows t).
Proof.
  unfold keys_below. split.
  - intros H t Ht. apply Forall_forall. intros r Hr. by eapply H.
  - intros H t r Ht Hr. specialize (H t Ht). rewrite Forall_forall in H. by apply H.
Qed.

Lemma steps_keep_order es w :
  keys_below env (db w) → ordered env (db w) →
  keys_below env (db (steps env es w).2) ∧ ordered env (db (steps env es w).2).
Proof.
  revert w. induction es as [|e es IH]; intros w Hbelow Hordered; [done|].
  rewrite steps_cons.
  assert (Hkeyed : ∀ t0, table_at env (db w) = Some (Some t0) →
            Forall (λ r, id r < auto_increment t0) (rows t0)
            ∧ StronglySorted Z.lt (id <$> rows t0)).
  { intros t0 Ht0. split; [|by apply Hordered].
    by apply (proj1 (keys_below_Forall (db w)) Hbelow). }
  pose proof (table_change_keeps_order _ _ (event_table_change e w) Hkeyed) as Hnext.
  apply IH.
  - apply keys_below_Forall. intros t Ht. by destruct (Hnext t Ht).
  - intros t Ht. by destruct (Hnext t Ht).
Qed.

Lemma steps_origin es w t' r' :
  table_at env (db (steps env es w).2) = Some (Some t') →
  r' ∈ rows t' →
  id r' < next_id env (db w) →
  ∃ t r, table_at env (db w) = Some (Some t) ∧ r ∈ rows t
         ∧ id r = id r' ∧ created_at r = created_at r'.
Proof.
  revert w. induction es as [|e es IH]; intros w Ht' Hr' Hlt.
  - by exists t', r'.
  - rewrite steps_cons in Ht'.
    pose proof (step_moves env e w) as (Hnext & _ & _).
    destruct (IH _ Ht' Hr') as (t1 & r1 & Ht1 & Hr1 & Hid1 & Hc1); [lia|].
    destruct (table_change_origin _ _ t1 r1 (event_table_change e w) Ht1 Hr1)
      as (t & r & Ht & Hr & Hid & Hc).
    { unfold next_id in Hlt. rewrite Hid1. exact Hlt. }
    exists t, r. repeat split; [done|done|congruence|congruence].
Qed.

Lemma same_key_same_row (l : list task_row) r1 r2 :
  NoDup (id <$> l) → r1 ∈ l → r2 ∈ l → id r1 = id r2 → r1 = r2.
Proof.
  induction l as [|x l IH]; intros Hnd H1 H2 Hid.
  - by apply elem_of_nil in H1.
  - rewrite fmap_cons in Hnd. apply NoDup_cons in Hnd as [Hx Hnd].
    apply elem_of_cons in H1 as [->|H1]; apply elem_of_cons in H2 as [->|H2].
    + done.
    + destruct Hx. rewrite Hid. by apply list_elem_of_fmap_2.
    + destruct Hx. rewrite <- Hid. by apply list_elem_of_fmap_2.
    + by apply IH.
Qed.
End TableFacts.

Section Persistence.
Context `{D : Dialect} (env : environ).

Lemma initDb_keeps_table w t :
  table_at env (db w) = Some (Some t) →
  table_at env (db (initDb env w).2) = Some (Some t).
Proof.
  intros Ht. rewrite initDb_eq. cbv zeta.
  destruct (create_database _ _) as [e|[h1 st1]] eqn:Hdb; [done|].
  apply (create_database_table env) in Hdb as [Hsame|[Hnone _]]; [|congruence].
  destruct (create_table _ _) as [e|[h2 st2]] eqn:Htable;
    cbn [snd scheduled logged queried db]; [congruence|].
  apply (create_table_table env) in Htable as [->|[Hempty _]]; congruence.
Qed.

Lemma table_change_keeps_table o o' t :
  table_change o o' → o = Some (Some t) →
  ∃ t', o' = Some (Some t') ∧ auto_increment t <= auto_increment t'.
Proof.
  intros Hchange Ho. destruct Hchange as [o| |o Hnone|t0 r Hid|t0 f Hf|t0 gone].
  - exists t. split; [done|lia].
  - done.
  - by destruct (Hnone t).
  - injection Ho as ->. eexists. split; [done|]. cbn. lia.
  - injection Ho as ->. eexists. split; [done|]. cbn. lia.
  - injection Ho as ->. eexists. split; [done|]. cbn. lia.
Qed.
End Persistence.

(** X8: the table is never dropped and its counter never goes back.  If the
    table is there, then after any sequence of events (requests, timer
    firings, restarts of the start-up routine, the server going down and
    up) it is still there, with a counter at least as large. *)
Theorem table_is_never_dropped `{D : Dialect} (env : environ)
    (es : list event) (w : world) (t : table) :
  table_at env (db w) = Some (Some t) →
  ∃ t', table_at env (db (steps env es w).2) = Some (Some t')
        ∧ auto_increment t <= auto_increment t'.
Proof.
  revert w t. induction es as [|e es IH]; intros w t Ht.
  - exists t. split; [done|lia].
  - rewrite steps_cons.
    destruct (table_change_keeps_table _ _ t (event_table_change env e w) Ht)
      as (t1 & Ht1 & Hle1).
    destruct (IH _ t1 Ht1) as (t' & Ht' & Hle').
    exists t'. split; [done|lia].
Qed.

Lemma table_is_never_dropped_witness :
  let es := [Http (PostTask {[ "title" := JStr "A" ]}); SetOnline false; Start;
             Fire; SetOnline true; Fire; Http (DeleteTask "1")] in
  ∃ t', table_at default_env (db (steps (D := plain) default_env es started).2)
        = Some (Some t')
        ∧ 1 <= auto_increment t'.
Proof.
  exact (table_is_never_dropped (D := plain) default_env
           [Http (PostTask {[ "title" := JStr "A" ]}); SetOnline false; Start;
            Fire; SetOnline true; Fire; Http (DeleteTask "1")]
           started {| rows := []; auto_increment := 1 |} eq_refl).
Defined.

(** X9: the start-up routine never touches a table that is there.  Run
    again (a restart, a second replica, a retry that fires late), [initDb]
    leaves the rows and the counter exactly as they are:
    [CREATE TABLE IF NOT EXISTS] on an existing table changes nothing. *)
Theorem start_up_keeps_existing_rows `{D : Dialect} (env : environ)
    (w : world) (t : table) :
  table_at env (db w) = Some (Some t) →
  table_at env (db (initDb env w).2) = Some (Some t)
  ∧ table_at env (db (step env Start w).2) = Some (Some t)
  ∧ table_at env (db (step env Fire w).2) = Some (Some t).
Proof.
  intros Ht. split; [by apply initDb_keeps_table|]. split.
  - cbn [step snd]. rewrite run_snd.
    unfold main, mbind, M_bind, listen, console_log.
    match goal with |- context [initDb env ?w0] =>
      pose proof (initDb_keeps_table env w0 t Ht) as Hm;
      destruct (initDb env w0) as [[?|[]] w']
    end; exact Hm.
  - cbn [step]. destruct (timers w) as [|[[] ms] ts]; [done|].
    cbn [callback_of snd]. rewrite run_snd.
    match goal with |- context [initDb env ?w0] =>
      exact (initDb_keeps_table env w0 t Ht)
    end.
Qed.

Lemma start_up_keeps_existing_rows_witness :
  let w := (run (post_task (D := plain) default_env {[ "title" := JStr "A" ]}) started).2 in
  stored default_env w
  = [{| id := 1; title := "A"; description := Some ""; created_at := 0 |}]
  ∧ table_at default_env (db (step (D := plain) default_env Start w).2)
    = Some (Some {| rows := [{| id := 1; title := "A"; description := Some "";
                                created_at := 0 |}];
                    auto_increment := 2 |}).
Proof.
  cbv zeta. split; [reflexivity|].
  assert (Ht : table_at default_env
            (db (run (post_task (D := plain) default_env {[ "title" := JStr "A" ]})
                   started).2)
          = Some (Some {| rows := [{| id := 1; title := "A"; description := Some "";
                                      created_at := 0 |}];
                          auto_increment := 2 |})) by reflexivity.
  destruct (start_up_keeps_existing_rows (D := plain) default_env _ _ Ht)
    as (_ & Hstart & _).
  exact Hstart.
Defined.

(** X10: keys stay unique and rows stay in key order.  If the rows of the
    table are below the counter and in increasing key order (as in an empty
    table), they are so after any sequence of events; in particular no two
    rows ever share a key, and the list route returns the tasks in the order
    they were created. *)
Theorem rows_stay_in_key_order `{D : Dialect} (env : environ)
    (es : list event) (w : world) :
  keys_below env (db w) →
  ordered env (db w) →
  keys_below env (db (steps env es w).2)
  ∧ ordered env (db (steps env es w).2)
  ∧ (∀ t, table_at env (db (steps env es w).2) = Some (Some t) →
          NoDup (id <$> rows t)).
Proof.
  intros Hbelow Hordered.
  destruct (steps_keep_order env es w Hbelow Hordered) as [Hbelow' Hordered'].
  split; [done|]. split; [done|].
  intros t Ht. apply increasing_NoDup. by apply Hordered'.
Qed.

Lemma rows_stay_in_key_order_witness :
  let es := [Http (PostTask {[ "title" := JStr "A" ]});
             Http (PostTask {[ "title" := JStr "B" ]});
             Http (PostTask {[ "title" := JStr "C" ]});
             Http (DeleteTask "2");
             Http (PutTask "1" {[ "title" := JStr "A2" ]});
             Http (PostTask {[ "title" := JStr "D" ]})] in
  let w := (steps (D := plain) default_env es started).2 in
  id <$> stored default_env w = [1; 3; 4]
  ∧ ordered default_env (db w).
Proof.
  cbv zeta. split; [reflexivity|].
  apply (rows_stay_in_key_order (D := plain) default_env).
  - intros t r Ht Hr. vm_compute in Ht. injection Ht as <-.
    by apply elem_of_nil in Hr.
  - intros t Ht. vm_compute in Ht. injection Ht as <-. constructor.
Defined.

(** X11: [id] and [created_at] are never rewritten.  Along any sequence of
    events, a row of the final table that has the key of a row of the
    initial table has that row's [created_at]: an update changes the title
    and the description only, and a key is never given to a second row. *)
Theorem created_at_is_never_rewritten `{D : Dialect} (env : environ)
    (es : list event) (w : world) (t t' : table) (r r' : task_row) :
  keys_below env (db w) →
  ordered env (db w) →
  table_at env (db w) = Some (Some t) →
  r ∈ rows t →
  table_at env (db (steps env es w).2) = Some (Some t') →
  r' ∈ rows t' →
  id r' = id r →
  created_at r' = created_at r.
Proof.
  intros Hbelow Hordered Ht Hr Ht' Hr' Hid.
  destruct (steps_origin env es w t' r' Ht' Hr') as (t0 & r0 & Ht0 & Hr0 & Hid0 & Hc0).
  { unfold next_id. rewrite Ht, Hid. by eapply Hbelow. }
  rewrite Ht in Ht0. injection Ht0 as <-.
  assert (r0 = r) as ->.
  { apply (same_key_same_row (rows t)); [|done|done|congruence].
    apply increasing_NoDup. by apply Hordered. }
  done.
Qed.

Lemma created_at_is_never_rewritten_witness :
  let w := (steps (D := plain) default_env
              [Tick 5; Http (PostTask {[ "title" := JStr "A" ]})] started).2 in
  let es := [Tick 9; Http (PutTask "1" {[ "title" := JStr "A2" ]});
             Http (PostTask {[ "title" := JStr "B" ]})] in
  stored default_env (steps (D := plain) default_env es w).2
  = [{| id := 1; title := "A2"; description := Some ""; created_at := 5 |};
     {| id := 2; title := "B"; description := Some ""; created_at := 9 |}]
  ∧ created_at {| id := 1; title := "A2"; description := Some ""; created_at := 5 |}
    = created_at {| id := 1; title := "A"; description := Some ""; created_at := 5 |}.
Proof.
  cbv zeta. split; [reflexivity|].
  eapply (created_at_is_never_rewritten (D := plain) default_env
            [Tick 9; Http (PutTask "1" {[ "title" := JStr "A2" ]});
             Http (PostTask {[ "title" := JStr "B" ]})]
            (steps (D := plain) default_env
               [Tick 5; Http (PostTask {[ "title" := JStr "A" ]})] started).2
            {| rows := [{| id := 1; title := "A"; description := Some "";
                           created_at := 5 |}];
               auto_increment := 2 |}
            {| rows := [{| id := 1; title := "A2"; description := Some "";
                           created_at := 5 |};
                        {| id := 2; title := "B"; description := Some "";
                           created_at := 9 |}];
               auto_increment := 3 |}).
  - intros t r Ht Hr. vm_compute in Ht. injection Ht as <-.
    apply list_elem_of_singleton in Hr as ->. by vm_compute.
  - intros t Ht. vm_compute in Ht. injection Ht as <-. repeat constructor.
  - reflexivity.
  - apply list_elem_of_here.
  - reflexivity.
  - apply list_elem_of_here.
  - reflexivity.
Defined.

(** ** Timers *)

Section Timers.
Context `{D : Dialect} (env : environ).

(** A handler arms no timer and sends nothing of what [initDb] sends. *)
Lemma handle_sends r w :
  ∃ l, sent (handle env r w).2 = sent w ++ l
       ∧ Forall (λ s, is_ddl s = false) l
       ∧ timers (handle env r w).2 = timers w.
Proof.
  destruct r as [| |key|req|key req|key]; cbn [handle].
  - exists []. by rewrite app_nil_r.
  - rewrite get_tasks_eq. exists [SelectAll].
    destruct (exec _ _ _) as [e|[found st]]; by repeat constructor.
  - rewrite get_task_eq. exists [SelectById key].
    destruct (exec _ _ _) as [e|[found st]]; by repeat constructor.
  - rewrite post_task_eq. cbv zeta. destruct (truthy _).
    + eexists [_]. destruct (insert_task _ _ _ _) as [e|[h st]]; by repeat constructor.
    + exists []. by rewrite app_nil_r.
  - rewrite put_task_eq. cbv zeta. eexists [_].
    destruct (update_task _ _ _ _ _) as [e|[h st]]; by repeat constructor.
  - rewrite delete_task_eq. exists [DeleteById key].
    destruct (delete_by_id _ _ _) as [e|[h st]]; by repeat constructor.
Qed.

Lemma initDb_timers w :
  timers (initDb env w).2 = timers w ∨ timers (initDb env w).2 = timers w ++ [retry].
Proof.
  rewrite initDb_eq. cbv zeta.
  destruct (create_database _ _) as [e|[h1 st1]]; [by right|].
  destruct (create_table _ _) as [e|[h2 st2]]; [by right|by left].
Qed.

Lemma event_timers e w :
  e ≠ Start →
  timers w = [] ∨ timers w = [retry] →
  timers (step env e w).2 = [] ∨ timers (step env e w).2 = [retry].
Proof.
  intros Hne Hpending. destruct e as [| |r|b|t]; [done|..]; cbn [step].
  - destruct Hpending as [Ht|Ht]; rewrite Ht; [by left|].
    cbn [callback_of retry snd]. rewrite run_snd.
    match goal with |- context [initDb env ?w0] =>
      destruct (initDb_timers w0) as [-> | ->] end; [by left|by right].
  - destruct (listening w); [|done]. rewrite run_snd.
    destruct (handle_sends r w) as (l & _ & _ & ->). done.
  - done.
  - done.
Qed.

(** With no timer pending and no new start, nothing of [initDb] is sent. *)
Lemma event_idle e w :
  e ≠ Start →
  timers w = [] →
  timers (step env e w).2 = []
  ∧ ∃ l, sent (step env e w).2 = sent w ++ l ∧ Forall (λ s, is_ddl s = false) l.
Proof.
  intros Hne Hidle. destruct e as [| |r|b|t]; [done|..]; cbn [step].
  - rewrite Hidle. split; [done|]. exists []. by rewrite app_nil_r.
  - destruct (listening w).
    + rewrite run_snd. destruct (handle_sends r w) as (l & Hl & Hddl & ->).
      split; [done|]. by exists l.
    + split; [done|]. exists []. by rewrite app_nil_r.
  - split; [done|]. exists []. by rewrite app_nil_r.
  - split; [done|]. exists []. by rewrite app_nil_r.
Qed.
End Timers.

(** X12: retries do not pile up.  After the process has started once, and
    whatever happens next (requests, firings, the server going down and up),
    at most one timer is pending, and it is the 5000 ms retry of [initDb]. *)
Theorem retries_do_not_pile_up `{D : Dialect} (env : environ)
    (es : list event) (st : store) :
  Forall (λ e, e ≠ Start) es →
  timers (steps env (Start :: es) (boot st)).2 = []
  ∨ timers (steps env (Start :: es) (boot st)).2 = [retry].
Proof.
  intros Hes. rewrite steps_cons.
  assert (Hstart : timers (step env Start (boot st)).2 = []
                   ∨ timers (step env Start (boot st)).2 = [retry]).
  { cbn [step snd]. rewrite run_snd.
    unfold main, mbind, M_bind, listen, console_log.
    match goal with |- context [initDb env ?w0] =>
      pose proof (initDb_timers env w0) as Hm;
      destruct (initDb env w0) as [[?|[]] w']
    end; exact Hm. }
  revert Hstart. generalize (step env Start (boot st)).2.
  induction Hes as [|e es He _ IH]; intros w Hpending; [done|].
  rewrite steps_cons. apply IH. by apply event_timers.
Qed.

Lemma retries_do_not_pile_up_witness :
  let es := [Fire; Http GetTasks; Fire; Fire; SetOnline true;
             Http (PostTask {[ "title" := JStr "A" ]}); Fire; Fire] in
  timers (steps (D := plain) default_env (Start :: es) (boot (blank false 0))).2 = []
  ∨ timers (steps (D := plain) default_env (Start :: es) (boot (blank false 0))).2
    = [retry].
Proof.
  apply (retries_do_not_pile_up (D := plain) default_env).
  repeat constructor; discriminate.
Defined.

(** X13: once the start-up has succeeded it is over.  From a state with no
    timer pending, and short of a new start, no event arms a timer again and
    no [CREATE DATABASE] or [CREATE TABLE] is ever sent again: a store that
    goes away later is reported by the routes (500) and never re-initialised
    by the running process. *)
Theorem start_up_is_not_repeated `{D : Dialect} (env : environ)
    (es : list event) (w : world) :
  timers w = [] →
  Forall (λ e, e ≠ Start) es →
  timers (steps env es w).2 = []
  ∧ ∃ l, sent (steps env es w).2 = sent w ++ l
         ∧ Forall (λ s, is_ddl s = false) l.
Proof.
  intros Hidle Hes. revert w Hidle.
  induction Hes as [|e es He _ IH]; intros w Hidle.
  - split; [done|]. exists []. by rewrite app_nil_r.
  - rewrite steps_cons.
    destruct (event_idle env e w He Hidle) as (Hidle1 & l1 & Hl1 & Hddl1).
    destruct (IH _ Hidle1) as (Hidle2 & l2 & Hl2 & Hddl2).
    split; [done|]. exists (l1 ++ l2). split.
    + by rewrite Hl2, Hl1, app_assoc.
    + by apply Forall_app.
Qed.

Lemma start_up_is_not_repeated_witness :
  let es := [Http (PostTask {[ "title" := JStr "A" ]}); SetOnline false;
             Http GetTasks; Fire; Fire; SetOnline true; Http GetTasks] in
  timers started = []
  ∧ timers (steps (D := plain) default_env es started).2 = []
  ∧ sent (steps (D := plain) default_env es started).2
    = sent started ++ [InsertTask (JStr "A") (JStr ""); SelectAll; SelectAll].
Proof.
  cbv zeta. split; [reflexivity|].
  destruct (start_up_is_not_repeated (D := plain) default_env
              [Http (PostTask {[ "title" := JStr "A" ]}); SetOnline false;
               Http GetTasks; Fire; Fire; SetOnline true; Http GetTasks]
              started eq_refl) as [Hidle _].
  { repeat constructor; discriminate. }
  split; [exact Hidle | reflexivity].
Defined.

(** ** Column bounds *)

(** X14: a title that does not fit [VARCHAR(255)] (store in strict SQL
    mode).  With the table in place and a description that can be bound:
    when a character beyond the 255th is not a space, a create is answered
    500 [{"error": "Failed to create task"}] and inserts nothing, an update
    of a key that some row has is answered 500
    [{"error": "Failed to update task"}] and changes nothing, and an update
    of a key that no row has is answered 404, the column check being made
    only when a row is written; when all that lies beyond the 255th character
    is spaces, the store cuts them off, so a create is answered 201 with the
    title as sent while the row keeps the first 255 characters. *)
Theorem overlong_title_is_cut_or_rejected `{D : Dialect} (env : environ)
    (key : string) (req : gmap string jsval) (w : world) (tbl : table)
    (s : string) (pd : sqlval) :
  open_tasks (database env) (db w) = inr tbl →
  prop req "title" = JStr s →
  fits VARCHAR_MAX s = false →
  bind (js_or (prop req "description") (JStr "")) = inr pd →
  (spaces_only (skip VARCHAR_MAX s) = false →
     ((post_task env req w).1 = inr (unavailable (PostTask req))
      ∧ status (unavailable (PostTask req)) = 500
      ∧ db (post_task env req w).2 = db w)
     ∧ (∀ r0, r0 ∈ rows tbl → matches key r0 = true →
          (put_task env key req w).1 = inr (unavailable (PutTask key req))
          ∧ db (put_task env key req w).2 = db w)
     ∧ ((∀ r, r ∈ rows tbl → matches key r = false) →
          (put_task env key req w).1 = inr not_found
          ∧ db (put_task env key req w).2 = db w))
  ∧ (spaces_only (skip VARCHAR_MAX s) = true →
     ∀ d, check_description pd = inr d →
          auto_increment tbl <= INT_MAX →
          ∃ r, (post_task env req w).1 = inr r
               ∧ status r = 201
               ∧ field r "title" = Some (JStr s)
               ∧ stored env (post_task env req w).2
                 = rows tbl
                   ++ [{| id := auto_increment tbl; title := keep VARCHAR_MAX s;
                          description := d; created_at := now (db w) |}]).
Proof.
  intros Hopen Htitle Hlong Hbind.
  assert (Htruthy : truthy (JStr s) = true).
  { destruct s; [done|]. done. }
  split.
  - intros Hexcess. split; [|split].
    + rewrite post_task_eq. cbv zeta. cbn [unavailable]. rewrite Htitle, Htruthy.
      unfold insert_task. rewrite Hopen, Hbind.
      cbn [mbind sum_bind bind escape check_title]. by rewrite Hlong, Hexcess.
    + intros r0 Hr0 Hm. rewrite put_task_eq. cbv zeta. rewrite Htitle.
      unfold update_task. rewrite Hopen, Hbind.
      cbn [mbind sum_bind bind escape]. rewrite (count_pos _ _ _ Hr0 Hm).
      cbn [check_title]. by rewrite Hlong, Hexcess.
    + intros Hnone. rewrite put_task_eq. cbv zeta. rewrite Htitle.
      apply count_zero in Hnone.
      by rewrite (update_task_missing env (JStr s) _ (SqlText s) pd key _ tbl
                    Hopen (bind_text s) Hbind Hnone).
  - intros Hexcess d Hdesc Hkey.
    assert (Hcut : check_title (SqlText s) = inr (keep VARCHAR_MAX s)).
    { cbn [check_title]. by rewrite Hlong, Hexcess. }
    rewrite post_task_eq. cbv zeta. rewrite Htitle, Htruthy.
    rewrite (insert_task_accepts env _ _ (SqlText s) pd (keep VARCHAR_MAX s) d _ tbl)
      by done.
    eexists. split; [done|]. split; [done|]. split.
    + unfold res_json, field. cbn [body insertId].
      rewrite to_json_created by (done || apply js_or_defined).
      rewrite lookup_insert_ne by done. by rewrite lookup_insert_eq.
    + unfold stored. cbn [snd queried db]. rewrite open_put_tasks; [done|].
      by apply open_tasks_inv in Hopen as [? _].
Qed.

Lemma overlong_title_is_cut_or_rejected_witness :
  let long := String.concat "" (replicate 256 "a") in
  let padded := String.concat "" (replicate 255 "a") +:+ " " in
  let w := (run (post_task (D := plain) default_env {[ "title" := JStr "A" ]}) started).2 in
  String.length long = 256%nat
  ∧ String.length padded = 256%nat
  ∧ status <$> (run (post_task (D := plain) default_env {[ "title" := JStr long ]}) w).1
    = Some 500
  ∧ db (post_task (D := plain) default_env {[ "title" := JStr long ]} w).2 = db w
  ∧ status <$> (run (put_task (D := plain) default_env "1" {[ "title" := JStr long ]}) w).1
    = Some 500
  ∧ status <$> (run (put_task (D := plain) default_env "7" {[ "title" := JStr long ]}) w).1
    = Some 404
  ∧ ∃ r, (post_task (D := plain) default_env {[ "title" := JStr padded ]} w).1 = inr r
         ∧ status r = 201
         ∧ field r "title" = Some (JStr padded)
         ∧ title <$> stored default_env
                       (post_task (D := plain) default_env {[ "title" := JStr padded ]} w).2
           = ["A"; String.concat "" (replicate 255 "a")].
Proof.
  cbv zeta. split; [by vm_compute|]. split; [by vm_compute|]. split; [by vm_compute|].
  assert (Hopen : open_tasks (database default_env)
            (db (run (post_task (D := plain) default_env {[ "title" := JStr "A" ]}) started).2)
          = inr {| rows := [{| id := 1; title := "A"; description := Some "";
                               created_at := 0 |}];
                   auto_increment := 2 |}) by reflexivity.
  destruct (overlong_title_is_cut_or_rejected (D := plain) default_env "1"
              {[ "title" := JStr (String.concat "" (replicate 256 "a")) ]} _ _
              (String.concat "" (replicate 256 "a")) (SqlText "") Hopen)
    as [Hrejected _]; [by vm_compute..|].
  destruct Hrejected as ((_ & _ & Hdb) & _ & _); [by vm_compute|].
  split; [exact Hdb|]. split; [by vm_compute|]. split; [by vm_compute|].
  destruct (overlong_title_is_cut_or_rejected (D := plain) default_env "1"
              {[ "title" := JStr (String.concat "" (replicate 255 "a") +:+ " ") ]} _ _
              (String.concat "" (replicate 255 "a") +:+ " ") (SqlText "") Hopen)
    as [_ Hcut]; [by vm_compute..|].
  assert (Hmax : 2 <= INT_MAX) by (by vm_compute).
  destruct (Hcut eq_refl (Some "") eq_refl Hmax) as (r & Hr & Hstatus & Htitle & Hstored).
  exists r. split; [exact Hr|]. split; [exact Hstatus|]. split; [exact Htitle|].
  rewrite Hstored. by vm_compute.
Defined.

(** * Properties of the client *)

(** ** [trim] *)

Lemma trim_end_cons c s :
  js_space c = false → trim_end (String c s) ≠ "".
Proof. intros Hc. cbn [trim_end]. rewrite Hc. by destruct (trim_end s). Qed.

Lemma trim_start_spec s :
  (all_chars js_space s = true ∧ trim_start s = "")
  ∨ (all_chars js_space s = false
     ∧ ∃ c s', trim_start s = String c s' ∧ js_space c = false).
Proof.
  induction s as [|c s IH]; [by left|]. cbn [all_chars trim_start].
  destruct (js_space c) eqn:Hc; [exact IH|].
  right. split; [done|]. by exists c, s.
Qed.

(** A string trims to the empty string exactly when it is made of white
    space only. *)
Lemma trim_blank s : String.eqb (trim s) "" = all_chars js_space s.
Proof.
  unfold trim. destruct (trim_start_spec s) as [[-> ->]|(-> & c & s' & -> & Hc)].
  - done.
  - apply String.eqb_neq. by apply trim_end_cons.
Qed.

Section ClientFacts.
Context `{D : Dialect} (env : environ).

Lemma axios_2xx resp :
  status resp = 200 ∨ status resp = 201 ∨ status resp = 204 →
  axios (Some resp) = Some resp.
Proof. unfold axios. by intros [->|[->| ->]]. Qed.

(** [fetchTasks] against a listening server whose table can be opened. *)
Lemma fetchTasks_ok c w p tbl :
  listening w = Some p →
  open_tasks (database env) (db w) = inr tbl →
  App.fetchTasks env c w
  = ({| App.tasks := JArr (row_object <$> rows tbl);
        App.newTask := App.newTask c;
        App.editingTask := App.editingTask c;
        App.loading := false;
        App.error := None |},
     queried SelectAll (db w) w).
Proof.
  intros Hp Hopen. unfold App.fetchTasks.
  rewrite (step_http env _ _ p Hp). unfold run. cbn [handle].
  rewrite get_tasks_eq. cbn [exec]. rewrite Hopen. cbn [mbind sum_bind].
  unfold res_json. by rewrite to_json_row_objects.
Qed.
End ClientFacts.

(** X15: a blank title never leaves the browser.  When the title of the
    draft (on create) or of the task being edited (on update) is empty or
    made of white space only, the handler sends nothing: the server and the
    store are untouched, and the only change in the client is the message
    "Task title is required.". *)
Theorem client_stops_blank_titles `{D : Dialect} (env : environ)
    (c : App.state) (w : world) :
  (all_chars js_space (App.draft_title (App.newTask c)) = true →
     App.createTask env c w
     = (App.setError (Some "Task title is required.") c, w))
  ∧ (∀ t, App.editingTask c = Some t →
          all_chars js_space (title t) = true →
          App.updateTask env c w
          = (App.setError (Some "Task title is required.") c, w)).
Proof.
  split.
  - intros Hblank. unfold App.createTask. by rewrite trim_blank, Hblank.
  - intros t Ht Hblank. unfold App.updateTask. by rewrite Ht, trim_blank, Hblank.
Qed.

Lemma client_stops_blank_titles_witness :
  let c := App.setNewTask {| App.draft_title := "  "; App.draft_description := "x" |}
             App.initial in
  App.createTask (D := plain) default_env c started
  = (App.setError (Some "Task title is required.") c, started).
Proof.
  cbv zeta.
  apply (client_stops_blank_titles (D := plain) default_env). reflexivity.
Defined.



(** X17: a create the server declines.  When there is no listener, or the
    store cannot be reached, [createTask] keeps the draft and the list as
    they were, shows "Failed to create task. Please try again.", and does
    not fetch the list again: at most the [INSERT] has been sent. *)
Theorem client_create_failure_keeps_draft `{D : Dialect} (env : environ)
    (c : App.state) (w : world) :
  all_chars js_space (App.draft_title (App.newTask c)) = false →
  listening w = None ∨ (∃ e, open_tasks (database env) (db w) = inl e) →
  let out := App.createTask env c w in
  out.1 = App.setError (Some "Failed to create task. Please try again.") c
  ∧ db out.2 = db w
  ∧ (sent out.2 = sent w
     ∨ sent out.2
       = sent w ++ [InsertTask (JStr (App.draft_title (App.newTask c)))
                      (js_or (JStr (App.draft_description (App.newTask c))) (JStr ""))]).
Proof.
  intros Hblank Hdown. cbv zeta.
  set (ttl := App.draft_title (App.newTask c)) in *.
  set (dsc := App.draft_description (App.newTask c)) in *.
  assert (Hs : ttl ≠ "") by (intros E; by rewrite E in Hblank).
  unfold App.createTask. fold ttl dsc. rewrite trim_blank, Hblank.
  destruct (listening w) as [p|] eqn:Hp.
  - destruct Hdown as [?|[e Hopen]]; [done|].
    rewrite (step_http env _ _ p Hp). unfold run. cbn [handle].
    rewrite post_task_eq. cbv zeta.
    replace (prop {[ "title" := JStr ttl; "description" := JStr dsc ]} "title")
      with (JStr ttl) by reflexivity.
    replace (prop {[ "title" := JStr ttl; "description" := JStr dsc ]} "description")
      with (JStr dsc) by reflexivity.
    cbn [truthy]. apply String.eqb_neq in Hs as ->. cbn [negb].
    unfold insert_task. rewrite Hopen. cbn [mbind sum_bind].
    split; [done|]. split; [done|]. by right.
  - cbn [step]. rewrite Hp. split; [done|]. split; [done|]. by left.
Qed.

Lemma client_create_failure_keeps_draft_witness :
  let c := App.setNewTask {| App.draft_title := "A"; App.draft_description := "" |}
             App.initial in
  let w := (step (D := plain) default_env Start (boot (blank false 0))).2 in
  let out := App.createTask (D := plain) default_env c w in
  out.1 = App.setError (Some "Failed to create task. Please try again.") c
  ∧ db out.2 = db w.
Proof.
  cbv zeta.
  destruct (client_create_failure_keeps_draft (D := plain) default_env
              (App.setNewTask {| App.draft_title := "A"; App.draft_description := "" |}
                 App.initial)
              (step (D := plain) default_env Start (boot (blank false 0))).2)
    as (Hstate & Hdb & _).
  - by vm_compute.
  - right. exists ECONNREFUSED. by vm_compute.
  - by split.
Defined.

(** X18: update through the client.  With a task being edited whose key
    names a row of the table, a title that is not blank and values that fit
    the columns, [updateTask] rewrites that row (title as typed, description
    as typed or [""] for [null]), closes the edit form, clears the error, and
    leaves in [tasks] the list of all rows after the update. *)
Theorem client_update_resyncs `{D : Dialect} (env : environ)
    (c : App.state) (w : world) (p : jsval) (tbl : table) (t r0 : task_row) :
  listening w = Some p →
  open_tasks (database env) (db w) = inr tbl →
  App.editingTask c = Some t →
  key_of (pretty (id t)) = Some (id t) →
  r0 ∈ rows tbl → id r0 = id t →
  all_chars js_space (title t) = false →
  fits VARCHAR_MAX (title t) = true →
  fits TEXT_MAX (default "" (description t)) = true →
  let after := set_row (title t) (Some (default "" (description t))) (pretty (id t))
               <$> rows tbl in
  let out := App.updateTask env c w in
  out.1 = {| App.tasks := JArr (row_object <$> after);
             App.newTask := App.newTask c;
             App.editingTask := None;
             App.loading := false;
             App.error := None |}
  ∧ stored env out.2 = after.
Proof.
  intros Hp Hopen Hedit Hkey Hr0 Hid Hblank Hfit Hfitd. cbv zeta.
  set (dsc := default "" (description t)) in *.
  assert (Hm : matches (pretty (id t)) r0 = true).
  { unfold matches. rewrite Hkey. by apply Z.eqb_eq. }
  assert (Hor : js_or (JStr dsc) (JStr "") = JStr dsc) by (by destruct dsc).
  assert (Hon : online (db w) = true) by (by apply open_tasks_inv in Hopen as [? _]).
  unfold App.updateTask. rewrite Hedit, trim_blank, Hblank. fold dsc.
  rewrite (step_http env _ _ p Hp). unfold run. cbn [handle].
  rewrite put_task_eq. cbv zeta.
  replace (prop {[ "title" := JStr (title t); "description" := JStr dsc ]} "title")
    with (JStr (title t)) by reflexivity.
  replace (prop {[ "title" := JStr (title t); "description" := JStr dsc ]} "description")
    with (JStr dsc) by reflexivity.
  rewrite Hor.
  rewrite (update_task_found env _ _ (SqlText (title t)) (SqlText dsc) (title t)
             (Some dsc) _ _ tbl r0)
    by (done || (by apply check_title_text) || (cbn; by rewrite Hfitd)).
  cbn [affectedRows]. rewrite (count_pos _ _ _ Hr0 Hm).
  rewrite axios_2xx by (by left).
  erewrite fetchTasks_ok; [|done|cbn [queried db]; by apply open_put_tasks].
  cbn [fst snd rows App.setEditingTask App.newTask App.editingTask].
  split; [done|]. unfold stored. cbn [queried db]. by rewrite open_put_tasks.
Qed.

Lemma client_update_resyncs_witness :
  let w := (run (post_task (D := plain) default_env {[ "title" := JStr "A" ]}) started).2 in
  let c := App.setEditingTask
             (Some {| id := 1; title := "A2"; description := None; created_at := 0 |})
             App.initial in
  let out := App.updateTask (D := plain) default_env c w in
  App.editingTask out.1 = None
  ∧ App.error out.1 = None
  ∧ stored default_env out.2
    = [{| id := 1; title := "A2"; description := Some ""; created_at := 0 |}].
Proof.
  cbv zeta.
  assert (Hopen : open_tasks (database default_env)
            (db (run (post_task (D := plain) default_env {[ "title" := JStr "A" ]}) started).2)
          = inr {| rows := [{| id := 1; title := "A"; description := Some "";
                               created_at := 0 |}];
                   auto_increment := 2 |}) by reflexivity.
  destruct (client_update_resyncs (D := plain) default_env
              (App.setEditingTask
                 (Some {| id := 1; title := "A2"; description := None; created_at := 0 |})
                 App.initial)
              (run (post_task (D := plain) default_env {[ "title" := JStr "A" ]})
                 started).2
              (JNum 5000)
              {| rows := [{| id := 1; title := "A"; description := Some "";
                             created_at := 0 |}];
                 auto_increment := 2 |}
              {| id := 1; title := "A2"; description := None; created_at := 0 |}
              {| id := 1; title := "A"; description := Some ""; created_at := 0 |})
    as [Hstate Hstored];
    [by vm_compute|exact Hopen|by vm_compute|by vm_compute
    |apply list_elem_of_here|by vm_compute..|].
  rewrite Hstate. split; [reflexivity|]. split; [reflexivity|].
  rewrite Hstored. reflexivity.
Defined.

(** X19: delete through the client.  A delete that the user does not
    confirm sends nothing and changes nothing.  A confirmed delete of a key
    that names a row removes the rows with that key and leaves in [tasks]
    the list of the others; a confirmed delete of a key that names no row is
    declined by the server (404), so the client shows "Failed to delete
    task. Please try again." and keeps its old list. *)
Theorem client_delete `{D : Dialect} (env : environ)
    (key : Z) (c : App.state) (w : world) :
  App.deleteTask env false key c w = (c, w)
  ∧ (∀ p tbl r0,
       listening w = Some p →
       open_tasks (database env) (db w) = inr tbl →
       r0 ∈ rows tbl → matches (pretty key) r0 = true →
       let after := filter (λ r, matches (pretty key) r = false) (rows tbl) in
       let out := App.deleteTask env true key c w in
       out.1 = {| App.tasks := JArr (row_object <$> after);
                  App.newTask := App.newTask c;
                  App.editingTask := App.editingTask c;
                  App.loading := false;
                  App.error := None |}
       ∧ stored env out.2 = after)
  ∧ (∀ p tbl,
       listening w = Some p →
       open_tasks (database env) (db w) = inr tbl →
       (∀ r, r ∈ rows tbl → matches (pretty key) r = false) →
       let out := App.deleteTask env true key c w in
       out.1 = App.setError (Some "Failed to delete task. Please try again.") c
       ∧ db out.2 = db w).
Proof.
  split; [done|]. split.
  - intros p tbl r0 Hp Hopen Hr0 Hm. cbv zeta.
    assert (Hon : online (db w) = true) by (by apply open_tasks_inv in Hopen as [? _]).
    unfold App.deleteTask. cbn [negb].
    rewrite (step_http env _ _ p Hp). unfold run. cbn [handle].
    rewrite delete_task_eq. unfold delete_by_id. rewrite Hopen. cbn [mbind sum_bind].
    rewrite (count_pos _ _ _ Hr0 Hm). cbn [affectedRows].
    rewrite (count_pos _ _ _ Hr0 Hm).
    rewrite axios_2xx by (right; by right).
    erewrite fetchTasks_ok; [|done|cbn [queried db]; by apply open_put_tasks].
    cbn [fst snd rows]. split; [done|].
    unfold stored. cbn [queried db]. by rewrite open_put_tasks.
  - intros p tbl Hp Hopen Hnone. cbv zeta.
    unfold App.deleteTask. cbn [negb].
    rewrite (step_http env _ _ p Hp). unfold run. cbn [handle].
    apply count_zero in Hnone.
    by rewrite (delete_task_missing env _ _ tbl Hopen Hnone).
Qed.

Lemma client_delete_witness :
  let w := (steps (D := plain) default_env
              [Http (PostTask {[ "title" := JStr "A" ]});
               Http (PostTask {[ "title" := JStr "B" ]})] started).2 in
  let out := App.deleteTask (D := plain) default_env true 1 App.initial w in
  App.tasks out.1
  = JArr [row_object {| id := 2; title := "B"; description := Some "";
                        created_at := 0 |}]
  ∧ App.error out.1 = None
  ∧ stored default_env out.2
    = [{| id := 2; title := "B"; description := Some ""; created_at := 0 |}].
Proof.
  cbv zeta.
  assert (Hopen : open_tasks (database default_env)
            (db (steps (D := plain) default_env
                   [Http (PostTask {[ "title" := JStr "A" ]});
                    Http (PostTask {[ "title" := JStr "B" ]})] started).2)
          = inr {| rows := [{| id := 1; title := "A"; description := Some "";
                               created_at := 0 |};
                            {| id := 2; title := "B"; description := Some "";
                               created_at := 0 |}];
                   auto_increment := 3 |}) by reflexivity.
  destruct (client_delete (D := plain) default_env 1 App.initial
              (steps (D := plain) default_env
                 [Http (PostTask {[ "title" := JStr "A" ]});
                  Http (PostTask {[ "title" := JStr "B" ]})] started).2)
    as (_ & Hfound & _).
  destruct (Hfound (JNum 5000)
              {| rows := [{| id := 1; title := "A"; description := Some "";
                             created_at := 0 |};
                          {| id := 2; title := "B"; description := Some "";
                             created_at := 0 |}];
                 auto_increment := 3 |}
              {| id := 1; title := "A"; description := Some ""; created_at := 0 |})
    as [Hstate Hstored];
    [by vm_compute|exact Hopen|apply list_elem_of_here|by vm_compute|].
  rewrite Hstate. split; [reflexivity|]. split; [reflexivity|].
  rewrite Hstored. reflexivity.
Defined.

(** X20: fetching the list.  Against a listening server whose table can be
    opened, [fetchTasks] leaves in [tasks] all the rows and clears the error;
    with no listener, or a store that cannot be reached, it keeps the old
    list and shows "Failed to fetch tasks. Please check your backend
    service.".  Either way [loading] ends lowered and the store is as it
    was. *)
Theorem client_fetch `{D : Dialect} (env : environ) (c : App.state) (w : world) :
  (∀ p tbl,
     listening w = Some p →
     open_tasks (database env) (db w) = inr tbl →
     (App.fetchTasks env c w).1
     = {| App.tasks := JArr (row_object <$> rows tbl);
          App.newTask := App.newTask c;
          App.editingTask := App.editingTask c;
          App.loading := false;
          App.error := None |})
  ∧ (listening w = None ∨ (∃ e, open_tasks (database env) (db w) = inl e) →
     (App.fetchTasks env c w).1
     = {| App.tasks := App.tasks c;
          App.newTask := App.newTask c;
          App.editingTask := App.editingTask c;
          App.loading := false;
          App.error := Some "Failed to fetch tasks. Please check your backend service." |})
  ∧ App.loading (App.fetchTasks env c w).1 = false
  ∧ db (App.fetchTasks env c w).2 = db w.
Proof.
  split; [|split].
  - intros p tbl Hp Hopen. by rewrite (fetchTasks_ok env c w p tbl).
  - intros Hdown. unfold App.fetchTasks.
    destruct (listening w) as [p|] eqn:Hp.
    + destruct Hdown as [?|[e Hopen]]; [done|].
      rewrite (step_http env _ _ p Hp). unfold run. cbn [handle].
      rewrite get_tasks_eq. cbn [exec]. by rewrite Hopen.
    + cbn [step]. by rewrite Hp.
  - unfold App.fetchTasks.
    destruct (listening w) as [p|] eqn:Hp.
    + rewrite (step_http env _ _ p Hp). unfold run. cbn [handle].
      rewrite get_tasks_eq. cbn [exec].
      destruct (open_tasks _ _) as [e|tbl]; cbn [mbind sum_bind]; by split.
    + cbn [step]. rewrite Hp. by split.
Qed.

Lemma client_fetch_witness :
  let w := (run (post_task (D := plain) default_env {[ "title" := JStr "A" ]}) started).2 in
  let down := (step (D := plain) default_env (SetOnline false) w).2 in
  App.tasks (App.mount (D := plain) default_env w).1
  = JArr [row_object {| id := 1; title := "A"; description := Some "";
                        created_at := 0 |}]
  ∧ (App.mount (D := plain) default_env down).1
    = {| App.tasks := JArr [];
         App.newTask := {| App.draft_title := ""; App.draft_description := "" |};
         App.editingTask := None;
         App.loading := false;
         App.error := Some "Failed to fetch tasks. Please check your backend service." |}.
Proof.
  cbv zeta. split; [reflexivity|].
  destruct (client_fetch (D := plain) default_env App.initial
              (step (D := plain) default_env (SetOnline false)
                 (run (post_task (D := plain) default_env {[ "title" := JStr "A" ]})
                    started).2).2)
    as (_ & Hdown & _).
  apply Hdown. right. exists ECONNREFUSED. reflexivity.
Defined.
